(** * error-types: the error classes of [src/index.js] and their conversion
    to Boom errors.

    The development has three layers.

    - [JS]: the fragment of JavaScript the source relies on: dynamically
      typed values, truthiness, string conversion, objects as ordered
      property lists, completions (normal return or a thrown [TypeError]).
    - [Boom]: the factories of the third-party package [@hapi/boom] that
      [index.js] calls.  The package is a dependency, not a file of the
      repository; the model follows the behaviour of its [lib/index.js].
    - the classes of [index.js] themselves, one definition per constructor
      and per method, and [toBoomError]. *)

From Stdlib Require Import ZArith List String Ascii Bool Lia.
From Stdlib Require Import DecimalString.
Import ListNotations.

Open Scope string_scope.
Open Scope Z_scope.

Set Warnings "-register-all".

(** ** JavaScript values *)

Module JS.

(** The values that can reach the code: the primitives, arrays and plain
    objects.  Numbers are the integer-valued ones.  Functions, symbols and
    objects with accessors or a custom [toString] are outside the model; the
    methods of the classes are modelled as Rocq functions, not as values. *)
Inductive value : Type :=
| VUndefined
| VNull
| VBool (b : bool)
| VNumber (n : Z)
| VString (s : string)
| VArray (elems : list value)
| VObject (fields : list (string * value)).

Definition object := list (string * value).

(** [x ? a : b], [if (x)], [!x] *)
Definition truthy (v : value) : bool :=
  match v with
  | VUndefined | VNull => false
  | VBool b => b
  | VNumber n => negb (n =? 0)
  | VString s => negb (s =? "")%string
  | VArray _ | VObject _ => true
  end.

(** [x === undefined] *)
Definition is_undefined (v : value) : bool :=
  match v with VUndefined => true | _ => false end.

(** [x === false] *)
Definition is_false (v : value) : bool :=
  match v with VBool false => true | _ => false end.

(** [x === s] for a string literal [s] *)
Definition is_string (s : string) (v : value) : bool :=
  match v with VString s' => (s' =? s)%string | _ => false end.

(** [x instanceof Object] *)
Definition instanceof_Object (v : value) : bool :=
  match v with VArray _ | VObject _ => true | _ => false end.

(** A parameter with a default, [function (p = d)]: the default applies
    exactly when the argument is [undefined]. *)
Definition default (d v : value) : value :=
  if is_undefined v then d else v.

(** The string conversion of template literals, of [Error(message)] and of
    [Array.prototype.join]. *)
Fixpoint ToString (v : value) : string :=
  match v with
  | VUndefined => "undefined"
  | VNull => "null"
  | VBool true => "true"
  | VBool false => "false"
  | VNumber n => NilZero.string_of_int (Z.to_int n)
  | VString s => s
  | VArray l =>
      String.concat ","
        (map (fun x => match x with
                       | VUndefined | VNull => ""
                       | _ => ToString x
                       end) l)
  | VObject _ => "[object Object]"
  end.

(** [arr.join(sep)]: [undefined] and [null] elements render as the empty
    string. *)
Definition join_elem (x : value) : string :=
  match x with
  | VUndefined | VNull => ""
  | _ => ToString x
  end.

Definition join (sep : string) (l : list value) : string :=
  String.concat sep (map join_elem l).

(** *** Objects: ordered property lists *)

Fixpoint lookup (k : string) (o : object) : option value :=
  match o with
  | [] => None
  | (k', v) :: r => if (k =? k')%string then Some v else lookup k r
  end.

(** [o.k = v]: an existing property keeps its place, a new one goes last. *)
Fixpoint put (k : string) (v : value) (o : object) : object :=
  match o with
  | [] => [(k, v)]
  | (k', v') :: r =>
      if (k =? k')%string then (k, v) :: r else (k', v') :: put k v r
  end.

Definition keys (o : object) : list string := map fst o.

(** [o.k] on a plain object: a missing property reads as [undefined]. *)
Definition get (o : object) (k : string) : value :=
  match lookup k o with
  | Some v => v
  | None => VUndefined
  end.

(** *** Completions *)

Inductive exception : Type :=
| TypeError (what : string).

Inductive completion (A : Type) : Type :=
| Normal (a : A)
| Throw (e : exception).

Arguments Normal {A} a.
Arguments Throw {A} e.

Definition bind {A B} (c : completion A) (k : A -> completion B)
  : completion B :=
  match c with
  | Normal a => k a
  | Throw e => Throw e
  end.

Definition throws {A} (c : completion A) : bool :=
  match c with Normal _ => false | Throw _ => true end.

(** [v.k] for an arbitrary value [v], for the property names the source
    reads from values it does not own ([asBoom], [name], [path], [message],
    [type], [fieldname]): reading a property of [undefined] or [null]
    throws, a plain object answers from its properties, and the primitives
    and arrays have none of these names. *)
Definition get_property (v : value) (k : string) : completion value :=
  match v with
  | VUndefined => Throw (TypeError "Cannot read properties of undefined")
  | VNull => Throw (TypeError "Cannot read properties of null")
  | VObject o => Normal (get o k)
  | _ => Normal VUndefined
  end.

End JS.

Export JS.

Notation "x <- c ;; k" := (bind c (fun x => k))
  (at level 61, c at next level, right associativity).

(** ** The Boom factories

    [@hapi/boom] builds an [Error] decorated with [output], whose [payload]
    is the body the transport writes: [statusCode], [error] (the reason
    phrase of the status) and [message].  Every factory goes through the
    [Boom] constructor and [internals.initialize], with the status code
    fixed by the factory. *)

Module Boom.

Record output_t : Type := mk_output {
  statusCode : Z;
  payload : object;
  headers : object
}.

Record t : Type := mk {
  message : string;
  data : value;
  isServer : bool;
  isDeveloperError : bool;
  output : output_t
}.

(** [internals.codes], at the status codes of the factories below. *)
Definition codes (code : Z) : option string :=
  if code =? 403 then Some "Forbidden"
  else if code =? 404 then Some "Not Found"
  else if code =? 409 then Some "Conflict"
  else if code =? 422 then Some "Unprocessable Entity"
  else if code =? 500 then Some "Internal Server Error"
  else if code =? 501 then Some "Not Implemented"
  else None.

(** [internals.codes.get (statusCode) || 'Unknown'] *)
Definition phrase (code : Z) : string :=
  match codes code with
  | Some p => p
  | None => "Unknown"
  end.

Definition set_payload (b : t) (k : string) (v : value) : t :=
  {| message := message b;
     data := data b;
     isServer := isServer b;
     isDeveloperError := isDeveloperError b;
     output := {| statusCode := statusCode (output b);
                  payload := put k v (payload (output b));
                  headers := headers (output b) |} |}.

Definition set_message (b : t) (m : string) : t :=
  {| message := m;
     data := data b;
     isServer := isServer b;
     isDeveloperError := isDeveloperError b;
     output := output b |}.

(** [internals.reformat], with [debug] false: a 500 hides the message from
    the payload. *)
Definition reformat (b : t) : t :=
  let code := statusCode (output b) in
  let b := set_payload b "statusCode" (VNumber code) in
  let b := set_payload b "error" (VString (phrase code)) in
  if code =? 500 then
    set_payload b "message" (VString "An internal server error occurred")
  else if truthy (VString (message b)) then
    set_payload b "message" (VString (message b))
  else b.

(** [internals.initialize (error, statusCode)], as the constructor calls it
    (its third parameter, [message], is then [undefined]). *)
Definition initialize (error_message : string) (data : value) (code : Z) : t :=
  let error := {| message := error_message;
                  data := data;
                  isServer := code >=? 500;
                  isDeveloperError := false;
                  output := {| statusCode := code;
                               payload := [];
                               headers := [] |} |} in
  let message := VUndefined in
  let '(error, message) :=
    if negb (truthy message) && negb (truthy (VString (Boom.message error)))
    then let error := reformat error in
         (error, get (payload (output error)) "error")
    else (error, message) in
  let error :=
    if truthy message then
      let m := (ToString message ++
                (if truthy (VString (Boom.message error))
                 then ": " ++ Boom.message error else ""))%string in
      set_payload (set_message error m) "message" (VString m)
    else error in
  reformat error.

(** [new Boom (message, { statusCode, data })]: the wrapped error is
    [new Error (message ? message : undefined)], whose message is the empty
    string when none is given. *)
Definition create (message : value) (code : Z) : t :=
  let error_message :=
    if truthy message then ToString message else "" in
  initialize error_message VNull code.

Definition forbidden (message : value) : t := create message 403.
Definition notFound (message : value) : t := create message 404.
Definition conflict (message : value) : t := create message 409.
Definition badData (message : value) : t := create message 422.

(** [internals.serverError], without [data] *)
Definition serverError (message : value) (code : Z) : t := create message code.

Definition notImplemented (message : value) : t := serverError message 501.

Definition badImplementation (message : value) : t :=
  let error := serverError message 500 in
  {| Boom.message := Boom.message error;
     data := data error;
     isServer := isServer error;
     isDeveloperError := true;
     output := output error |}.

End Boom.

(** ** The error classes of [index.js] *)

(** The classes, as tags: the class of an object decides which [asBoom] a
    call reaches. *)
Module Class.
Inductive t : Type :=
| ErrorBase
| ErrorNotImplemented
| ErrorTyped
| ErrorNotFound
| ErrorDuplicate
| ErrorAccessDenied
| ErrorDocumentNotFound
| ErrorFieldNotFound
| ErrorFieldNotValid
| ErrorFile
| ErrorFieldNotAllowed
| ErrorBadRequest
| ErrorServerError
| ErrorUnknown
| ErrorDataError.
End Class.

(** An instance: its class and its own properties, in the order the
    constructors assign them. *)
Record instance : Type := mk_instance {
  class : Class.t;
  own : object
}.

(** [this.k]: an own property, else what [Error.prototype] holds under that
    name ([message] is the empty string there, [name] is ["Error"]). *)
Definition this_get (this : instance) (k : string) : value :=
  match lookup k (own this) with
  | Some v => v
  | None =>
      if (k =? "message")%string then VString ""
      else if (k =? "name")%string then VString "Error"
      else VUndefined
  end.

(** [this.k = v] *)
Definition this_set (this : instance) (k : string) (v : value) : instance :=
  {| class := class this; own := put k v (own this) |}.

(** [new Error (message)] reached through [super] from class [target]: the
    message becomes an own property, converted to a string, unless it is
    [undefined]. *)
Definition Error (target : Class.t) (message : value) : instance :=
  {| class := target;
     own := if is_undefined message then []
            else [("message", VString (ToString message))] |}.

(** [class ErrorBase extends Error]; [target] is the class being
    constructed. *)
Definition ErrorBase (target : Class.t) (message status : value) : instance :=
  let status := default (VNumber 500) status in
  let this := Error target message in
  this_set this "boomStatus" status.

Definition ErrorBase_asBoom (this : instance) : Boom.t :=
  Boom.badData (this_get this "message").

Definition ErrorNotImplemented (message status : value) : instance :=
  let this := ErrorBase Class.ErrorNotImplemented message status in
  this_set this "type" (VString "ErrorNotImplemented").

Definition ErrorNotImplemented_asBoom (this : instance) : Boom.t :=
  Boom.notImplemented (this_get this "message").

Definition ErrorTyped (type message : value) : instance :=
  let this := ErrorBase Class.ErrorTyped message VUndefined in
  this_set this "type" type.

Definition ErrorTyped_asBoom (this : instance) : Boom.t :=
  Boom.forbidden (this_get this "message").

Definition ErrorNotFound (field message status : value) : instance :=
  let field := default (VString "no name") field in
  let message := default (VString "not found") message in
  let this := ErrorBase Class.ErrorNotFound message VUndefined in
  let this := this_set this "type" (VString "ErrorNotFound") in
  this_set this "name" field.

Definition ErrorNotFound_asBoom (this : instance) : Boom.t :=
  let b := Boom.notFound (this_get this "message") in
  Boom.set_payload b "details"
    (VObject [("fieldname", this_get this "fieldname")]).

Definition ErrorDuplicate (fieldname message status : value) : instance :=
  let fieldname := default (VString "no name") fieldname in
  let message := default (VString "duplicate") message in
  let this := ErrorBase Class.ErrorDuplicate message status in
  let this := this_set this "type" (VString "ErrorDuplicate") in
  this_set this "fieldname" fieldname.

Definition ErrorDuplicate_asBoom (this : instance) : Boom.t :=
  let b := Boom.conflict (VString "duplicate") in
  Boom.set_payload b "details"
    (VObject [("fieldname", this_get this "fieldname");
              ("message", this_get this "message")]).

Definition ErrorAccessDenied (message status : value) : instance :=
  let message := default (VString "access denied") message in
  let this := ErrorBase Class.ErrorAccessDenied message status in
  this_set this "type" (VString "ErrorAccessDenied").

Definition ErrorAccessDenied_asBoom (this : instance) : Boom.t :=
  let b := Boom.forbidden (this_get this "message") in
  b.

Definition ErrorDocumentNotFound (document message status : value)
  : instance :=
  let document := default (VString "") document in
  let message := default (VString "document not found") message in
  let this := ErrorBase Class.ErrorDocumentNotFound message status in
  let this := this_set this "document" document in
  this_set this "type" (VString "ErrorDocumentNotFound").

Definition ErrorDocumentNotFound_asBoom (this : instance) : Boom.t :=
  let b := Boom.notFound (this_get this "message") in
  Boom.set_payload b "details"
    (VObject [("document", this_get this "document")]).

Definition ErrorFieldNotFound (fieldName message status : value) : instance :=
  let fieldName := default (VString "") fieldName in
  let message :=
    if is_undefined message
    then VString ("field (" ++ ToString fieldName ++ ") was not found")
    else message in
  let this := ErrorBase Class.ErrorFieldNotFound message status in
  let this := this_set this "fieldName" fieldName in
  this_set this "type" (VString "ErrorFieldNotFound").

Definition ErrorFieldNotFound_asBoom (this : instance) : Boom.t :=
  let b := Boom.notFound (this_get this "message") in
  Boom.set_payload b "details"
    (VObject [("fieldName", this_get this "fieldName")]).

Definition ErrorFieldNotValid (fieldname message status : value) : instance :=
  let fieldname := default (VString "") fieldname in
  let message := default (VString "data not valid") message in
  let this :=
    ErrorBase Class.ErrorFieldNotValid
      (if is_false message then fieldname else message) status in
  let this :=
    this_set this "fieldname"
      (if is_false message then VString " -- no field --" else fieldname) in
  this_set this "type" (VString "ErrorFieldNotValid").

Definition ErrorFieldNotValid_asBoom (this : instance) : Boom.t :=
  let b := Boom.conflict (VString "not valid") in
  Boom.set_payload b "details"
    (VObject [("fieldname", this_get this "fieldname");
              ("message", this_get this "message")]).

Definition ErrorFile (filename message status : value) : instance :=
  let filename := default (VString "") filename in
  let message := default (VString "file error found") message in
  let this := ErrorBase Class.ErrorFile message status in
  let this := this_set this "document" filename in
  this_set this "type" (VString "ErrorFile").

Definition ErrorFile_asBoom (this : instance) : Boom.t :=
  let b := Boom.notFound (VString "file not found") in
  Boom.set_payload b "details"
    (VObject [("document", this_get this "document");
              ("message", this_get this "message")]).

(** The double quote, for the message template of [ErrorFieldNotAllowed]. *)
Definition dquote : string := String (ascii_of_nat 34) "".

(** The template literal of [ErrorFieldNotAllowed]:
    [`field${fields.length > 1 ? 's' : ''} "${fields.join(', ')}" not defined`].
    Reading [length] of [undefined] or [null] throws; on any other value
    that is not an array [fields.join] is not a function, and the call
    throws after the side-effect free test of [length]. *)
Definition fields_template (fields : value) : completion string :=
  match fields with
  | VUndefined | VNull =>
      Throw (TypeError "Cannot read properties of undefined (reading 'length')")
  | VArray l =>
      Normal ("field" ++ (if Z.of_nat (List.length l) >? 1 then "s" else "")
              ++ " " ++ dquote ++ join ", " l ++ dquote ++ " not defined")
  | _ => Throw (TypeError "fields.join is not a function")
  end.

Definition ErrorFieldNotAllowed (fields message status : value)
  : completion instance :=
  let message := default (VBool false) message in
  message <- (if truthy message then Normal message
              else s <- fields_template fields ;; Normal (VString s)) ;;
  let this := ErrorBase Class.ErrorFieldNotAllowed message status in
  let this := this_set this "type" (VString "ErrorFieldNotAllowed") in
  Normal (this_set this "fields" fields).

Definition ErrorBadRequest (message status : value) : instance :=
  let this := ErrorBase Class.ErrorBadRequest message status in
  this_set this "type" (VString "ErrorBadRequest").

Definition ErrorServerError (message status : value) : instance :=
  let this := ErrorBase Class.ErrorServerError message status in
  this_set this "type" (VString "ErrorServerError").

Definition ErrorUnknown (message status : value) : instance :=
  let this := ErrorBase Class.ErrorUnknown message status in
  this_set this "type" (VString "ErrorUnknown").

(** *** The aggregator, [ErrorDataError] *)

(** [this.errors.push ({type, fieldname, message, data})]: [push] exists
    only when [errors] is an array. *)
Definition add (this : instance) (type fieldname message data : value)
  : completion instance :=
  match this_get this "errors" with
  | VArray errors =>
      Normal (this_set this "errors"
                (VArray (errors ++
                         [VObject [("type", type);
                                   ("fieldname", fieldname);
                                   ("message", message);
                                   ("data", data)]])))
  | VUndefined | VNull =>
      Throw (TypeError "Cannot read properties of undefined (reading 'push')")
  | _ => Throw (TypeError "this.errors.push is not a function")
  end.

(** [get length ()]: [this.errors.length] *)
Definition length (this : instance) : completion value :=
  match this_get this "errors" with
  | VArray errors => Normal (VNumber (Z.of_nat (List.length errors)))
  | VString s => Normal (VNumber (Z.of_nat (String.length s)))
  | VObject o => Normal (get o "length")
  | VUndefined | VNull =>
      Throw (TypeError "Cannot read properties of undefined (reading 'length')")
  | _ => Normal VUndefined
  end.

(** [arr[index]] at an integer index: the element, or [undefined] outside
    the array. *)
Definition array_index (l : list value) (index : Z) : value :=
  if index <? 0 then VUndefined
  else nth (Z.to_nat index) l VUndefined.

(** [error (index)]: [this.errors[index]], at an integer [index]. *)
Definition error (this : instance) (index : Z) : completion value :=
  match this_get this "errors" with
  | VArray errors => Normal (array_index errors index)
  | VString s =>
      Normal (if index <? 0 then VUndefined
              else match String.get (Z.to_nat index) s with
                   | Some c => VString (String c "")
                   | None => VUndefined
                   end)
  | VObject o => Normal (get o (ToString (VNumber index)))
  | VUndefined | VNull =>
      Throw (TypeError "Cannot read properties of undefined")
  | _ => Normal VUndefined
  end.

Definition ErrorDataError (message status : value) : completion instance :=
  let message := default (VString "data error") message in
  this <-
    (if instanceof_Object message then
       let this :=
         ErrorBase Class.ErrorDataError (VString "data error")
           (if negb (is_undefined status) then status else VNumber 401) in
       let this := this_set this "errors" (VArray []) in
       type <- get_property message "type" ;;
       fieldname <- get_property message "fieldname" ;;
       message' <- get_property message "message" ;;
       add this type fieldname message' VUndefined
     else
       let this := ErrorBase Class.ErrorDataError message (VNumber 401) in
       Normal (this_set this "errors" (VArray []))) ;;
  Normal (this_set this "name" (VString "ErrorDataError")).

(** *** Dispatch *)

(** The method [asBoom] an instance finds on its prototype chain, applied
    to the instance: the one of its class, or the one [ErrorBase] hands
    down.  Whether a call [err.asBoom ()] reaches it is settled where the
    call is made, in [toBoomError]. *)
Definition asBoom (this : instance) : Boom.t :=
  match class this with
  | Class.ErrorNotImplemented => ErrorNotImplemented_asBoom this
  | Class.ErrorTyped => ErrorTyped_asBoom this
  | Class.ErrorNotFound => ErrorNotFound_asBoom this
  | Class.ErrorDuplicate => ErrorDuplicate_asBoom this
  | Class.ErrorAccessDenied => ErrorAccessDenied_asBoom this
  | Class.ErrorDocumentNotFound => ErrorDocumentNotFound_asBoom this
  | Class.ErrorFieldNotFound => ErrorFieldNotFound_asBoom this
  | Class.ErrorFieldNotValid => ErrorFieldNotValid_asBoom this
  | Class.ErrorFile => ErrorFile_asBoom this
  | Class.ErrorBase
  | Class.ErrorFieldNotAllowed
  | Class.ErrorBadRequest
  | Class.ErrorServerError
  | Class.ErrorUnknown
  | Class.ErrorDataError => ErrorBase_asBoom this
  end.

(** [new C (...args)]: a missing argument is [undefined]. *)
Definition arg (args : list value) (i : nat) : value := nth i args VUndefined.

Definition new (C : Class.t) (args : list value) : completion instance :=
  let a0 := arg args 0 in
  let a1 := arg args 1 in
  let a2 := arg args 2 in
  match C with
  | Class.ErrorBase => Normal (ErrorBase Class.ErrorBase a0 a1)
  | Class.ErrorNotImplemented => Normal (ErrorNotImplemented a0 a1)
  | Class.ErrorTyped => Normal (ErrorTyped a0 a1)
  | Class.ErrorNotFound => Normal (ErrorNotFound a0 a1 a2)
  | Class.ErrorDuplicate => Normal (ErrorDuplicate a0 a1 a2)
  | Class.ErrorAccessDenied => Normal (ErrorAccessDenied a0 a1)
  | Class.ErrorDocumentNotFound => Normal (ErrorDocumentNotFound a0 a1 a2)
  | Class.ErrorFieldNotFound => Normal (ErrorFieldNotFound a0 a1 a2)
  | Class.ErrorFieldNotValid => Normal (ErrorFieldNotValid a0 a1 a2)
  | Class.ErrorFile => Normal (ErrorFile a0 a1 a2)
  | Class.ErrorFieldNotAllowed => ErrorFieldNotAllowed a0 a1 a2
  | Class.ErrorBadRequest => Normal (ErrorBadRequest a0 a1)
  | Class.ErrorServerError => Normal (ErrorServerError a0 a1)
  | Class.ErrorUnknown => Normal (ErrorUnknown a0 a1)
  | Class.ErrorDataError => ErrorDataError a0 a1
  end.

(** ** The conversion, [toBoomError] *)

(** What reaches [toBoomError]: an instance of one of the classes above,
    or any other value. *)
Inductive thrown : Type :=
| Domain (e : instance)
| Foreign (v : value).

(** The calls of [console.error], oldest first, each with its arguments. *)
Definition console := list (list value).

(** Computations that may throw and may write to the console. *)
Definition eff (A : Type) : Type := console -> completion A * console.

Definition ret {A} (a : A) : eff A := fun out => (Normal a, out).

Definition lift {A} (c : completion A) : eff A := fun out => (c, out).

Definition bind_eff {A B} (m : eff A) (k : A -> eff B) : eff B :=
  fun out =>
    match m out with
    | (Normal a, out') => k a out'
    | (Throw e, out') => (Throw e, out')
    end.

Definition console_error (args : list value) : eff unit :=
  fun out => (Normal tt, (out ++ [args])%list).

Notation "x <~ m ;; k" := (bind_eff m (fun x => k))
  (at level 61, m at next level, right associativity).

(** What [err.asBoom] evaluates to: the method an instance inherits from
    its class, or a value.  A property [asBoom] assigned on an instance
    shadows the method. *)
Inductive member : Type :=
| Method (this : instance)
| Value (v : value).

Definition read_asBoom (err : thrown) : completion member :=
  match err with
  | Domain e =>
      match lookup "asBoom" (own e) with
      | Some v => Normal (Value v)
      | None => Normal (Method e)
      end
  | Foreign v => m <- get_property v "asBoom" ;; Normal (Value m)
  end.

(** [err.k] for the other properties the conversion reads. *)
Definition read (err : thrown) (k : string) : completion value :=
  match err with
  | Domain e => Normal (this_get e k)
  | Foreign v => get_property v k
  end.

(** [toBoomError (err, request)].  The inherited method is truthy and is
    called.  A value holds no function, so a truthy one cannot be called,
    and a falsy one sends the object, instance or not, down the branch of
    the foreign errors. *)
Definition toBoomError (err : thrown) (request : value) : eff Boom.t :=
  m <~ lift (read_asBoom err) ;;
  match m with
  | Method this => ret (asBoom this)
  | Value m =>
      if truthy m then
        lift (Throw (TypeError "err.asBoom is not a function"))
      else
        name <~ lift (read err "name") ;;
        if is_string "CastError" name then
          let b := Boom.conflict (VString "not valid") in
          path <~ lift (read err "path") ;;
          message <~ lift (read err "message") ;;
          ret (Boom.set_payload b "details"
                 (VObject [("fieldname", path); ("message", message)]))
        else
          message <~ lift (read err "message") ;;
          _ <~ console_error [VString "[Error undefined]:"; message] ;;
          ret (Boom.badImplementation message)
  end.

(** ** Closed forms, tables and drivers

    Definitions the statements below are written with.  None of them is
    code of [index.js]: the closed forms are proved equal to what the code
    computes, the tables are those of the specification, and the drivers
    run the code on a list of calls. *)

(** *** Boom errors in closed form *)

(** The message a Boom error ends with: the one given, or the reason phrase
    of the status when none is given or it renders as the empty string. *)
Definition boom_message (m : value) (code : Z) : string :=
  if truthy m && negb (ToString m =? "")%string then ToString m
  else Boom.phrase code.

(** The body of a Boom error: a 500 shows a fixed text in place of the
    message. *)
Definition boom_payload (m : value) (code : Z) : object :=
  [("statusCode", VNumber code);
   ("error", VString (Boom.phrase code));
   ("message",
    VString (if code =? 500 then "An internal server error occurred"
             else boom_message m code))].

(** *** The conversion in closed form *)

(** The status code of the Boom factory the [asBoom] of each class calls. *)
Definition conversion_status (C : Class.t) : Z :=
  match C with
  | Class.ErrorNotImplemented => 501
  | Class.ErrorTyped | Class.ErrorAccessDenied => 403
  | Class.ErrorNotFound | Class.ErrorDocumentNotFound
  | Class.ErrorFieldNotFound | Class.ErrorFile => 404
  | Class.ErrorDuplicate | Class.ErrorFieldNotValid => 409
  | Class.ErrorBase | Class.ErrorFieldNotAllowed | Class.ErrorBadRequest
  | Class.ErrorServerError | Class.ErrorUnknown | Class.ErrorDataError => 422
  end.

(** The message each [asBoom] hands to its factory. *)
Definition conversion_message (e : instance) : value :=
  match class e with
  | Class.ErrorDuplicate => VString "duplicate"
  | Class.ErrorFieldNotValid => VString "not valid"
  | Class.ErrorFile => VString "file not found"
  | _ => this_get e "message"
  end.

(** The [details] each [asBoom] attaches to the payload, if any. *)
Definition conversion_details (e : instance) : option value :=
  match class e with
  | Class.ErrorNotFound =>
      Some (VObject [("fieldname", this_get e "fieldname")])
  | Class.ErrorDuplicate | Class.ErrorFieldNotValid =>
      Some (VObject [("fieldname", this_get e "fieldname");
                     ("message", this_get e "message")])
  | Class.ErrorDocumentNotFound =>
      Some (VObject [("document", this_get e "document")])
  | Class.ErrorFieldNotFound =>
      Some (VObject [("fieldName", this_get e "fieldName")])
  | Class.ErrorFile =>
      Some (VObject [("document", this_get e "document");
                     ("message", this_get e "message")])
  | _ => None
  end.

(** *** The variants and their documented defaults *)

(** The table of the specification: the default status documented for
    each variant.  [ErrorBase] and the aggregator are not rows of it. *)
Definition documented_status (C : Class.t) : option Z :=
  match C with
  | Class.ErrorNotImplemented => Some 500
  | Class.ErrorNotFound => Some 404
  | Class.ErrorDuplicate => Some 500
  | Class.ErrorAccessDenied => Some 403
  | Class.ErrorDocumentNotFound => Some 404
  | Class.ErrorFieldNotFound => Some 404
  | Class.ErrorFieldNotValid => Some 409
  | Class.ErrorFieldNotAllowed => Some 500
  | Class.ErrorFile => Some 404
  | Class.ErrorBadRequest => Some 500
  | Class.ErrorServerError => Some 500
  | Class.ErrorUnknown => Some 500
  | Class.ErrorTyped => Some 500
  | Class.ErrorBase | Class.ErrorDataError => None
  end.

(** The arguments a variant cannot do without: the kind of [ErrorTyped] and
    the field list of [ErrorFieldNotAllowed]; every other parameter has a
    default or may stay [undefined]. *)
Definition required (C : Class.t) (x : value) : list value :=
  match C with
  | Class.ErrorTyped | Class.ErrorFieldNotAllowed => [x]
  | _ => []
  end.

(** The discriminator a constructor stores in [type]: its own class name,
    or the caller's first argument for [ErrorTyped]. *)
Definition kind (C : Class.t) (x : value) : value :=
  match C with
  | Class.ErrorNotImplemented => VString "ErrorNotImplemented"
  | Class.ErrorTyped => x
  | Class.ErrorNotFound => VString "ErrorNotFound"
  | Class.ErrorDuplicate => VString "ErrorDuplicate"
  | Class.ErrorAccessDenied => VString "ErrorAccessDenied"
  | Class.ErrorDocumentNotFound => VString "ErrorDocumentNotFound"
  | Class.ErrorFieldNotFound => VString "ErrorFieldNotFound"
  | Class.ErrorFieldNotValid => VString "ErrorFieldNotValid"
  | Class.ErrorFile => VString "ErrorFile"
  | Class.ErrorFieldNotAllowed => VString "ErrorFieldNotAllowed"
  | Class.ErrorBadRequest => VString "ErrorBadRequest"
  | Class.ErrorServerError => VString "ErrorServerError"
  | Class.ErrorUnknown => VString "ErrorUnknown"
  | Class.ErrorBase | Class.ErrorDataError => VUndefined
  end.

(** *** Runs of the aggregator *)

(** A record as [add] stores it. *)
Definition record (r : value * value * value * value) : value :=
  let '(type, fieldname, message, data) := r in
  VObject [("type", type); ("fieldname", fieldname);
           ("message", message); ("data", data)].

(** A run of [add] calls, one per entry. *)
Fixpoint add_all (this : instance) (rs : list (value * value * value * value))
  : completion instance :=
  match rs with
  | [] => Normal this
  | (type, fieldname, message, data) :: rs' =>
      this' <- add this type fieldname message data ;;
      add_all this' rs'
  end.

(** The records the constructor starts with: one, read off the descriptor,
    when the first argument is an object, none otherwise. *)
Definition seed (message : value) : list value :=
  match message with
  | VObject o =>
      [record (get o "type", get o "fieldname", get o "message", VUndefined)]
  | VArray _ => [record (VUndefined, VUndefined, VUndefined, VUndefined)]
  | _ => []
  end.

(** The message and the status the constructor hands to [ErrorBase]. *)
Definition aggregate_message (message : value) : value :=
  if instanceof_Object message then VString "data error"
  else VString (ToString (default (VString "data error") message)).

Definition aggregate_status (message status : value) : value :=
  if instanceof_Object message && negb (is_undefined status) then status
  else VNumber 401.

(** The state of an aggregator that matters to its methods. *)
Record aggregator (e : instance) (message status : value) (records : list value)
  : Prop := {
  agg_class : class e = Class.ErrorDataError;
  agg_message : this_get e "message" = message;
  agg_status : this_get e "boomStatus" = status;
  agg_errors : this_get e "errors" = VArray records
}.

(** *** Substrings *)

(** [sub] occurs in [s]. *)
Fixpoint contains (sub s : string) : bool :=
  String.prefix sub s
  || match s with
     | EmptyString => false
     | String _ r => contains sub r
     end.

(** *** Instances as the constructors leave them *)

(** The instance has [asBoom] by inheritance only: none of its own
    properties goes by that name. *)
Definition inherits_asBoom (e : instance) : Prop :=
  lookup "asBoom" (own e) = None.

(** *** Parameters of the constructors *)

(** Where each constructor takes its message. *)
Definition message_position (C : Class.t) : nat :=
  match C with
  | Class.ErrorBase | Class.ErrorNotImplemented | Class.ErrorAccessDenied
  | Class.ErrorBadRequest | Class.ErrorServerError | Class.ErrorUnknown
  | Class.ErrorDataError => 0%nat
  | _ => 1%nat
  end.

(** Where each constructor takes its status.  [ErrorTyped] has no such
    parameter: the position is past its two arguments. *)
Definition status_position (C : Class.t) : nat :=
  match C with
  | Class.ErrorBase | Class.ErrorNotImplemented | Class.ErrorAccessDenied
  | Class.ErrorBadRequest | Class.ErrorServerError | Class.ErrorUnknown
  | Class.ErrorDataError => 1%nat
  | _ => 2%nat
  end.

(** The message a constructor falls back on when none is given; the
    constructors without a default leave the message of [Error], the empty
    string.  [ErrorFieldNotFound] and [ErrorFieldNotAllowed] render a
    template instead and are not rows of this table. *)
Definition default_message (C : Class.t) : string :=
  match C with
  | Class.ErrorNotFound => "not found"
  | Class.ErrorDuplicate => "duplicate"
  | Class.ErrorAccessDenied => "access denied"
  | Class.ErrorDocumentNotFound => "document not found"
  | Class.ErrorFieldNotValid => "data not valid"
  | Class.ErrorFile => "file error found"
  | Class.ErrorDataError => "data error"
  | _ => ""
  end.

(** The classes whose [asBoom] gives its factory a text of its own and
    moves the instance's message into [details.message]. *)
Definition fixed_text (C : Class.t) : option string :=
  match C with
  | Class.ErrorDuplicate => Some "duplicate"
  | Class.ErrorFieldNotValid => Some "not valid"
  | Class.ErrorFile => Some "file not found"
  | _ => None
  end.

(** The classes whose first argument reaches [details], with the key it
    gets there and the default it has. *)
Definition field_key (C : Class.t) : option (string * string) :=
  match C with
  | Class.ErrorDuplicate => Some ("fieldname", "no name")
  | Class.ErrorDocumentNotFound => Some ("document", "")
  | Class.ErrorFieldNotFound => Some ("fieldName", "")
  | Class.ErrorFile => Some ("document", "")
  | _ => None
  end.


(** ** Properties of the model *)

(** Unfolds a run of [toBoomError] down to its reads of the value. *)
Ltac run_toBoomError :=
  unfold toBoomError, read_asBoom, read, bind_eff, lift, ret, console_error,
    bind.

(** *** Property lists *)

Lemma lookup_put_same (k : string) (v : value) (o : object) :
  lookup k (put k v o) = Some v.
Proof.
  induction o as [|[k' v'] r IH]; simpl.
  - now rewrite String.eqb_refl.
  - destruct (k =? k')%string eqn:E; simpl.
    + now rewrite String.eqb_refl.
    + now rewrite E.
Qed.

Lemma lookup_put_other (k k' : string) (v : value) (o : object) :
  k' <> k -> lookup k' (put k v o) = lookup k' o.
Proof.
  intros Hne. induction o as [|[k0 v0] r IH]; simpl.
  - apply String.eqb_neq in Hne. now rewrite Hne.
  - destruct (k =? k0)%string eqn:E; simpl.
    + apply String.eqb_eq in E. subst k0.
      apply String.eqb_neq in Hne. now rewrite Hne.
    + now rewrite IH.
Qed.

Lemma get_put_same (k : string) (v : value) (o : object) :
  get (put k v o) k = v.
Proof. unfold get. now rewrite lookup_put_same. Qed.

Lemma get_put_other (k k' : string) (v : value) (o : object) :
  k' <> k -> get (put k v o) k' = get o k'.
Proof. intros. unfold get. now rewrite lookup_put_other. Qed.

Lemma this_get_set_same (this : instance) (k : string) (v : value) :
  this_get (this_set this k v) k = v.
Proof. unfold this_get, this_set; simpl. now rewrite lookup_put_same. Qed.

Lemma this_get_set_other (this : instance) (k k' : string) (v : value) :
  k' <> k -> this_get (this_set this k v) k' = this_get this k'.
Proof.
  intros. unfold this_get, this_set; simpl. now rewrite lookup_put_other.
Qed.

Lemma class_this_set (this : instance) (k : string) (v : value) :
  class (this_set this k v) = class this.
Proof. reflexivity. Qed.

(** *** Boom *)

Module BoomFacts.

Import Boom.

Lemma append_empty_r (s : string) : (s ++ "")%string = s.
Proof. induction s as [|c s IH]; simpl; [reflexivity | now rewrite IH]. Qed.

Lemma phrase_nonempty (code : Z) : exists c r, phrase code = String c r.
Proof.
  unfold phrase, codes.
  repeat match goal with
         | |- context [if ?c =? ?n then _ else _] => destruct (c =? n)
         end; eexists; eexists; reflexivity.
Qed.

#[local] Arguments phrase : simpl never.

Lemma initialize_empty (data : value) (code : Z) :
  initialize "" data code =
  mk (phrase code) data (code >=? 500) false
     (mk_output code
        [("statusCode", VNumber code);
         ("error", VString (phrase code));
         ("message",
          VString (if code =? 500 then "An internal server error occurred"
                   else phrase code))] []).
Proof.
  destruct (phrase_nonempty code) as (c & r & E).
  unfold initialize, reformat, set_payload, set_message; simpl.
  destruct (code =? 500) eqn:E5; simpl; rewrite !E; simpl;
    rewrite ?E5, ?E, append_empty_r; reflexivity.
Qed.

Lemma initialize_nonempty (c : ascii) (r : string) (data : value) (code : Z) :
  initialize (String c r) data code =
  mk (String c r) data (code >=? 500) false
     (mk_output code
        [("statusCode", VNumber code);
         ("error", VString (phrase code));
         ("message",
          VString (if code =? 500 then "An internal server error occurred"
                   else String c r))] []).
Proof.
  unfold initialize, reformat, set_payload, set_message; simpl.
  destruct (code =? 500); reflexivity.
Qed.

(** Every factory call in closed form. *)
Lemma create_eq (m : value) (code : Z) :
  create m code =
  mk (boom_message m code) VNull (code >=? 500) false
     (mk_output code (boom_payload m code) []).
Proof.
  unfold create, boom_payload, boom_message.
  destruct (truthy m); simpl andb; cbv iota.
  - destruct (ToString m) as [|c r] eqn:E; simpl negb; cbv iota.
    + apply initialize_empty.
    + apply initialize_nonempty.
  - apply initialize_empty.
Qed.

Lemma create_statusCode (m : value) (code : Z) :
  statusCode (output (create m code)) = code.
Proof. now rewrite create_eq. Qed.

Lemma create_payload_eq (m : value) (code : Z) :
  payload (output (create m code)) = boom_payload m code.
Proof. now rewrite create_eq. Qed.

Lemma create_message_eq (m : value) (code : Z) :
  message (create m code) = boom_message m code.
Proof. now rewrite create_eq. Qed.

(** A non-empty string given as message is the message of the error. *)
Lemma boom_message_string (s : string) (code : Z) :
  s <> "" -> boom_message (VString s) code = s.
Proof.
  intros Hs. unfold boom_message; simpl.
  apply String.eqb_neq in Hs. now rewrite Hs.
Qed.

Lemma badImplementation_eq (m : value) :
  badImplementation m =
  mk (boom_message m 500) VNull true true
     (mk_output 500 (boom_payload m 500) []).
Proof.
  unfold badImplementation, serverError. now rewrite create_eq.
Qed.

End BoomFacts.

(** *** The conversion in closed form *)

Lemma asBoom_eq (e : instance) :
  asBoom e =
  Boom.mk
    (boom_message (conversion_message e)
       (conversion_status (class e)))
    VNull (conversion_status (class e) >=? 500) false
    (Boom.mk_output (conversion_status (class e))
       (boom_payload (conversion_message e)
          (conversion_status (class e))
        ++ match conversion_details e with
           | Some d => [("details", d)]
           | None => []
           end)%list
       []).
Proof.
  unfold asBoom, conversion_message, conversion_details.
  destruct (class e);
    unfold ErrorBase_asBoom, ErrorNotImplemented_asBoom, ErrorTyped_asBoom,
      ErrorNotFound_asBoom, ErrorDuplicate_asBoom, ErrorAccessDenied_asBoom,
      ErrorDocumentNotFound_asBoom, ErrorFieldNotFound_asBoom,
      ErrorFieldNotValid_asBoom, ErrorFile_asBoom,
      Boom.badData, Boom.notImplemented, Boom.serverError, Boom.forbidden,
      Boom.notFound, Boom.conflict;
    rewrite BoomFacts.create_eq; reflexivity.
Qed.

Lemma asBoom_statusCode (e : instance) :
  Boom.statusCode (Boom.output (asBoom e)) = conversion_status (class e).
Proof. now rewrite asBoom_eq. Qed.

Lemma asBoom_payload_statusCode (e : instance) :
  get (Boom.payload (Boom.output (asBoom e))) "statusCode"
  = VNumber (conversion_status (class e)).
Proof. now rewrite asBoom_eq. Qed.

Lemma asBoom_payload_error (e : instance) :
  get (Boom.payload (Boom.output (asBoom e))) "error"
  = VString (Boom.phrase (conversion_status (class e))).
Proof. now rewrite asBoom_eq. Qed.

Lemma asBoom_payload_keys (e : instance) :
  keys (Boom.payload (Boom.output (asBoom e)))
  = (["statusCode"; "error"; "message"]
     ++ match conversion_details e with
        | Some _ => ["details"]
        | None => []
        end)%list.
Proof.
  rewrite asBoom_eq; simpl. now destruct (conversion_details e).
Qed.

Lemma asBoom_payload_details (e : instance) :
  lookup "details" (Boom.payload (Boom.output (asBoom e)))
  = conversion_details e.
Proof.
  rewrite asBoom_eq; simpl. now destruct (conversion_details e).
Qed.

(** On an instance that inherits its [asBoom], [toBoomError] is [asBoom]
    and leaves the console alone. *)
Lemma toBoomError_Domain (e : instance) (request : value) (out : console) :
  inherits_asBoom e ->
  toBoomError (Domain e) request out = (Normal (asBoom e), out).
Proof. intros H. run_toBoomError. now rewrite H. Qed.

Lemma this_set_inherits (e : instance) (k : string) (v : value) :
  k <> "asBoom" -> inherits_asBoom e -> inherits_asBoom (this_set e k v).
Proof.
  unfold inherits_asBoom, this_set; simpl. intros Hk H.
  rewrite lookup_put_other by congruence. exact H.
Qed.

Lemma Error_inherits (C : Class.t) (message : value) :
  inherits_asBoom (Error C message).
Proof. destruct message; reflexivity. Qed.

Lemma ErrorBase_inherits (C : Class.t) (message status : value) :
  inherits_asBoom (ErrorBase C message status).
Proof. destruct message; reflexivity. Qed.

(** Follows [inherits_asBoom] through the assignments of a constructor. *)
Ltac inherits :=
  repeat (apply this_set_inherits; [discriminate |]);
  first [apply ErrorBase_inherits | apply Error_inherits | assumption].

(** *** Construction *)

Lemma ErrorFieldNotAllowed_class (fields message status : value)
    (e : instance) :
  ErrorFieldNotAllowed fields message status = Normal e ->
  class e = Class.ErrorFieldNotAllowed.
Proof.
  unfold ErrorFieldNotAllowed.
  destruct (truthy (default (VBool false) message)); simpl.
  - intros H; inversion H; reflexivity.
  - destruct (fields_template fields); simpl; intros H; inversion H.
    reflexivity.
Qed.

Lemma ErrorDataError_class (message status : value) (e : instance) :
  ErrorDataError message status = Normal e ->
  class e = Class.ErrorDataError.
Proof.
  unfold ErrorDataError.
  destruct (instanceof_Object (default (VString "data error") message)) eqn:E;
    simpl.
  - destruct (default (VString "data error") message); try discriminate;
      simpl; intros H; inversion H; reflexivity.
  - intros H; inversion H; reflexivity.
Qed.

Lemma new_class (C : Class.t) (args : list value) (e : instance) :
  new C args = Normal e -> class e = C.
Proof.
  destruct C; simpl; intros H;
    try (inversion H; reflexivity).
  - eapply ErrorFieldNotAllowed_class; eassumption.
  - eapply ErrorDataError_class; eassumption.
Qed.

Lemma add_inherits (e e' : instance) (type fieldname message data : value) :
  add e type fieldname message data = Normal e' ->
  inherits_asBoom e -> inherits_asBoom e'.
Proof.
  unfold add. destruct (this_get e "errors"); try discriminate.
  intros H He; inversion H. now inherits.
Qed.

Lemma add_all_inherits (rs : list (value * value * value * value)) :
  forall e e',
    add_all e rs = Normal e' -> inherits_asBoom e -> inherits_asBoom e'.
Proof.
  induction rs as [|[[[type fieldname] message] data] rs IH];
    intros e e'; simpl.
  - intros H; inversion H; auto.
  - destruct (add e type fieldname message data) as [e1 |] eqn:Hadd;
      simpl; [| discriminate].
    intros Hall He. apply (IH e1 e' Hall).
    eapply add_inherits; eassumption.
Qed.

Lemma ErrorFieldNotAllowed_inherits (fields message status : value)
    (e : instance) :
  ErrorFieldNotAllowed fields message status = Normal e -> inherits_asBoom e.
Proof.
  unfold ErrorFieldNotAllowed.
  destruct (truthy (default (VBool false) message)); cbn [bind].
  - intros H; inversion H. now inherits.
  - destruct (fields_template fields); cbn [bind]; intros H; inversion H.
    now inherits.
Qed.

Lemma ErrorDataError_inherits (message status : value) (e : instance) :
  ErrorDataError message status = Normal e -> inherits_asBoom e.
Proof.
  unfold ErrorDataError.
  destruct (instanceof_Object (default (VString "data error") message)).
  - destruct (get_property (default (VString "data error") message) "type");
      cbn [bind]; [| discriminate].
    destruct (get_property (default (VString "data error") message)
                "fieldname"); cbn [bind]; [| discriminate].
    destruct (get_property (default (VString "data error") message)
                "message"); cbn [bind]; [| discriminate].
    match goal with
    | |- context [add ?this ?t ?f ?m ?d] =>
        destruct (add this t f m d) as [e1 |] eqn:Hadd
    end; cbn [bind]; [| discriminate].
    intros H; inversion H; subst e.
    apply this_set_inherits; [discriminate |].
    eapply add_inherits; [exact Hadd |]. now inherits.
  - cbn [bind]. intros H; inversion H. now inherits.
Qed.

(** No constructor assigns [asBoom]: what [new] returns inherits it. *)
Lemma new_inherits (C : Class.t) (args : list value) (e : instance) :
  new C args = Normal e -> inherits_asBoom e.
Proof.
  destruct C; unfold new; cbv zeta; intros H;
    try (inversion H;
         unfold ErrorNotImplemented, ErrorTyped, ErrorNotFound,
           ErrorDuplicate, ErrorAccessDenied, ErrorDocumentNotFound,
           ErrorFieldNotFound, ErrorFieldNotValid, ErrorFile,
           ErrorBadRequest, ErrorServerError, ErrorUnknown;
         cbv zeta; now inherits).
  - eapply ErrorFieldNotAllowed_inherits; eassumption.
  - eapply ErrorDataError_inherits; eassumption.
Qed.

(** ** The variants and their documented defaults *)

Lemma asBoom_payload_no_discriminator (e : instance) :
  lookup "kind" (Boom.payload (Boom.output (asBoom e))) = None
  /\ lookup "type" (Boom.payload (Boom.output (asBoom e))) = None.
Proof.
  rewrite asBoom_eq; simpl. now destruct (conversion_details e).
Qed.

(** What a constructor called with its required arguments only leaves on
    the instance: status 500 and its discriminator. *)
Lemma new_required_own (C : Class.t) (x : value) (e : instance) :
  documented_status C <> None ->
  new C (required C x) = Normal e ->
  this_get e "boomStatus" = VNumber 500 /\ this_get e "type" = kind C x.
Proof.
  intros Hdoc Hnew.
  destruct C; simpl in Hdoc; try congruence;
    cbv [new required arg nth] in Hnew;
    try (inversion Hnew; subst e; split; reflexivity).
  unfold ErrorFieldNotAllowed in Hnew; simpl in Hnew.
  destruct x; simpl in Hnew; try discriminate.
  inversion Hnew; subst e; split; reflexivity.
Qed.

(** C1 (as amended): for each of the thirteen variants, whatever the
    arguments it is constructed with, the conversion returns a Boom error
    whose status is the one of the Boom factory the variant converts with
    (501 for NotImplemented, 403 for Typed and AccessDenied, 404 for
    NotFound, DocumentNotFound, FieldNotFound and File, 409 for Duplicate
    and FieldNotValid, 422 for FieldsNotAllowed, BadRequest, ServerError and
    Unknown), in [output.statusCode] and in the payload alike; the payload
    names the status by its reason phrase and holds neither a [kind] nor a
    [type].  Constructed with its required arguments only, the instance
    keeps the status 500 and the variant's discriminator, as [boomStatus]
    and [type]. *)
Theorem C1_default_conversion
    (C : Class.t) (args : list value) (e : instance)
    (request : value) (out : console) :
  documented_status C <> None ->
  new C args = Normal e ->
  toBoomError (Domain e) request out = (Normal (asBoom e), out)
  /\ Boom.statusCode (Boom.output (asBoom e)) = conversion_status C
  /\ get (Boom.payload (Boom.output (asBoom e))) "statusCode"
     = VNumber (conversion_status C)
  /\ get (Boom.payload (Boom.output (asBoom e))) "error"
     = VString (Boom.phrase (conversion_status C))
  /\ lookup "kind" (Boom.payload (Boom.output (asBoom e))) = None
  /\ lookup "type" (Boom.payload (Boom.output (asBoom e))) = None
  /\ (forall x, args = required C x ->
      this_get e "boomStatus" = VNumber 500
      /\ this_get e "type" = kind C x).
Proof.
  intros Hdoc Hnew.
  pose proof (new_class _ _ _ Hnew) as Hc.
  pose proof (toBoomError_Domain e request out (new_inherits _ _ _ Hnew))
    as Hconv.
  destruct (asBoom_payload_no_discriminator e) as [Hkind Htype].
  rewrite asBoom_statusCode, asBoom_payload_statusCode, asBoom_payload_error.
  rewrite Hc.
  repeat (split; [first [assumption | reflexivity] |]).
  intros x ->. now apply (new_required_own C x e).
Qed.

Lemma C1_default_conversion_witness :
  documented_status Class.ErrorNotFound <> None
  /\ new Class.ErrorNotFound (required Class.ErrorNotFound VUndefined)
     = Normal (ErrorNotFound VUndefined VUndefined VUndefined)
  /\ Boom.statusCode
       (Boom.output (asBoom (ErrorNotFound VUndefined VUndefined VUndefined)))
     = 404
  /\ this_get (ErrorNotFound VUndefined VUndefined VUndefined) "type"
     = VString "ErrorNotFound".
Proof.
  destruct (C1_default_conversion Class.ErrorNotFound
              (required Class.ErrorNotFound VUndefined)
              (ErrorNotFound VUndefined VUndefined VUndefined) VUndefined []
              ltac:(discriminate) eq_refl)
    as (_ & Hstatus & _ & _ & _ & _ & Hown).
  split; [discriminate |]. split; [reflexivity |].
  split; [exact Hstatus |].
  exact (proj2 (Hown VUndefined eq_refl)).
Defined.

(** C1, as stated, fails at NotImplemented: documented with status 500, it
    converts to 501. *)
Lemma C1_NotImplemented_converts_to_501 :
  documented_status Class.ErrorNotImplemented = Some 500
  /\ new Class.ErrorNotImplemented (required Class.ErrorNotImplemented VUndefined)
     = Normal (ErrorNotImplemented VUndefined VUndefined)
  /\ fst (toBoomError (Domain (ErrorNotImplemented VUndefined VUndefined))
            VUndefined [])
     = Normal (Boom.notImplemented (VString ""))
  /\ Boom.statusCode (Boom.output (Boom.notImplemented (VString ""))) = 501
  /\ Boom.statusCode (Boom.output (Boom.notImplemented (VString ""))) <> 500.
Proof.
  repeat split; try reflexivity. vm_compute. discriminate.
Qed.

(** The same holds for six more rows of the table. *)
Lemma documented_status_mismatches :
  filter (fun C => match documented_status C with
                   | Some s => negb (s =? conversion_status C)
                   | None => false
                   end)
    [Class.ErrorNotImplemented; Class.ErrorNotFound; Class.ErrorDuplicate;
     Class.ErrorAccessDenied; Class.ErrorDocumentNotFound;
     Class.ErrorFieldNotFound; Class.ErrorFieldNotValid;
     Class.ErrorFieldNotAllowed; Class.ErrorFile; Class.ErrorBadRequest;
     Class.ErrorServerError; Class.ErrorUnknown; Class.ErrorTyped]
  = [Class.ErrorNotImplemented; Class.ErrorDuplicate;
     Class.ErrorFieldNotAllowed; Class.ErrorBadRequest;
     Class.ErrorServerError; Class.ErrorUnknown; Class.ErrorTyped].
Proof. reflexivity. Qed.

(** Two variants built from the same message convert to the same Boom
    error: nothing in the result tells them apart. *)
Lemma asBoom_forgets_class (message status : value) :
  asBoom (ErrorBadRequest message status)
  = asBoom (ErrorServerError message status).
Proof. destruct message; reflexivity. Qed.

(** ** The aggregator *)

Lemma ErrorDataError_returns (message status : value) :
  exists e,
    ErrorDataError message status = Normal e
    /\ aggregator e (aggregate_message message)
         (aggregate_status message status) (seed message)
    /\ this_get e "name" = VString "ErrorDataError".
Proof.
  unfold ErrorDataError, aggregate_message, aggregate_status.
  destruct message; simpl;
    try (destruct status; simpl);
    eexists; (split; [reflexivity |]); (split; [split |]); reflexivity.
Qed.

Lemma add_aggregator (e : instance) (message status : value)
    (records : list value) (type fieldname message' data : value) :
  aggregator e message status records ->
  exists e',
    add e type fieldname message' data = Normal e'
    /\ aggregator e' message status
         (records ++ [record (type, fieldname, message', data)])
    /\ this_get e' "name" = this_get e "name".
Proof.
  intros [Hc Hm Hs He].
  unfold add. rewrite He.
  eexists; split; [reflexivity |]. split; [split |].
  - rewrite class_this_set. exact Hc.
  - rewrite this_get_set_other by discriminate. exact Hm.
  - rewrite this_get_set_other by discriminate. exact Hs.
  - now rewrite this_get_set_same.
  - now rewrite this_get_set_other by discriminate.
Qed.

Lemma add_all_aggregator (rs : list (value * value * value * value)) :
  forall (e : instance) (message status : value) (records : list value),
    aggregator e message status records ->
    exists e',
      add_all e rs = Normal e'
      /\ aggregator e' message status (records ++ map record rs)
      /\ this_get e' "name" = this_get e "name".
Proof.
  induction rs as [|[[[type fieldname] message'] data] rs IH];
    intros e message status records Hagg; simpl.
  - exists e. rewrite app_nil_r. auto.
  - destruct (add_aggregator e message status records
                type fieldname message' data Hagg) as (e1 & Hadd & Hagg1 & Hn1).
    rewrite Hadd; simpl.
    destruct (IH e1 message status _ Hagg1) as (e2 & Hall & Hagg2 & Hn2).
    exists e2. rewrite <- app_assoc in Hagg2. simpl in Hagg2.
    repeat split; try assumption; try apply Hagg2. congruence.
Qed.

Lemma aggregator_asBoom (e : instance) (message status : value)
    (records : list value) :
  aggregator e message status records -> asBoom e = Boom.badData message.
Proof.
  intros [Hc Hm _ _]. unfold asBoom. rewrite Hc.
  unfold ErrorBase_asBoom. now rewrite Hm.
Qed.

(** C2 (as amended): an aggregator, whatever its constructor arguments and
    whatever records were added to it, converts through the [asBoom] it
    inherits from [ErrorBase]: the result is [Boom.badData] of its message,
    with status 422 and no [details]; the records play no part in it.  The
    instance keeps [boomStatus] 401 (or the status given along with a
    descriptor), the name ["ErrorDataError"], and all its records in order
    in [errors]. *)
Theorem C2_aggregator_conversion
    (message status : value) (rs : list (value * value * value * value))
    (request : value) (out : console) :
  exists e,
    (e0 <- ErrorDataError message status ;; add_all e0 rs) = Normal e
    /\ toBoomError (Domain e) request out
       = (Normal (Boom.badData (aggregate_message message)), out)
    /\ Boom.statusCode (Boom.output (asBoom e)) = 422
    /\ get (Boom.payload (Boom.output (asBoom e))) "statusCode" = VNumber 422
    /\ lookup "details" (Boom.payload (Boom.output (asBoom e))) = None
    /\ this_get e "boomStatus" = aggregate_status message status
    /\ this_get e "name" = VString "ErrorDataError"
    /\ this_get e "errors" = VArray (seed message ++ map record rs).
Proof.
  destruct (ErrorDataError_returns message status) as (e0 & Hnew & Hagg0 & Hn0).
  destruct (add_all_aggregator rs e0 _ _ _ Hagg0) as (e & Hall & Hagg & Hn).
  exists e. rewrite Hnew; cbn [bind].
  pose proof (aggregator_asBoom e _ _ _ Hagg) as Hboom.
  assert (Hinh : inherits_asBoom e).
  { apply (add_all_inherits rs e0 e Hall).
    now apply ErrorDataError_inherits with message status. }
  destruct Hagg as [Hc Hm Hs He].
  rewrite (toBoomError_Domain e request out Hinh).
  rewrite asBoom_statusCode, asBoom_payload_statusCode,
    asBoom_payload_details, Hboom.
  unfold conversion_details. rewrite Hc; simpl.
  repeat split; try assumption; try reflexivity. congruence.
Qed.

(** C2, as stated, fails on an aggregator holding one record: it converts
    to status 422, not 401, and its payload has no [details]. *)
Lemma C2_aggregator_converts_to_422_without_details :
  exists e b,
    (e0 <- ErrorDataError VUndefined VUndefined ;;
     add e0 (VString "required") (VString "age") (VString "missing") VUndefined)
    = Normal e
    /\ this_get e "errors"
       = VArray [record (VString "required", VString "age",
                         VString "missing", VUndefined)]
    /\ fst (toBoomError (Domain e) VUndefined []) = Normal b
    /\ Boom.statusCode (Boom.output b) = 422
    /\ Boom.statusCode (Boom.output b) <> 401
    /\ lookup "details" (Boom.payload (Boom.output b)) = None
    /\ lookup "kind" (Boom.payload (Boom.output b)) = None.
Proof.
  eexists; eexists.
  split; [reflexivity |]. split; [reflexivity |]. split; [reflexivity |].
  repeat split; try reflexivity. vm_compute. discriminate.
Qed.

(** ** NotFound without arguments *)

(** C3 (as amended): [new ErrorNotFound ()] converts to a 404 whose message
    is ["not found"], on the Boom error and in its payload, and whose
    [details] is an object with the single key [fieldname]. *)
Theorem C3_NotFound_defaults (request : value) (out : console) :
  new Class.ErrorNotFound []
  = Normal (ErrorNotFound VUndefined VUndefined VUndefined)
  /\ exists b,
       toBoomError (Domain (ErrorNotFound VUndefined VUndefined VUndefined))
         request out = (Normal b, out)
       /\ Boom.statusCode (Boom.output b) = 404
       /\ Boom.message b = "not found"
       /\ get (Boom.payload (Boom.output b)) "message" = VString "not found"
       /\ exists v,
            lookup "details" (Boom.payload (Boom.output b))
            = Some (VObject [("fieldname", v)]).
Proof.
  split; [reflexivity |].
  eexists. split; [reflexivity |].
  repeat split. eexists. reflexivity.
Qed.

(** C3, as stated, fails: the [details] of a converted
    [new ErrorNotFound ()] have no [fieldName]; reading it gives
    [undefined], not ["no name"]. *)
Lemma C3_NotFound_details_fieldName_undefined :
  exists b d,
    fst (toBoomError (Domain (ErrorNotFound VUndefined VUndefined VUndefined))
           VUndefined []) = Normal b
    /\ lookup "details" (Boom.payload (Boom.output b)) = Some (VObject d)
    /\ keys d = ["fieldname"]
    /\ get d "fieldName" = VUndefined
    /\ get d "fieldName" <> VString "no name".
Proof.
  eexists; eexists.
  split; [reflexivity |]. split; [reflexivity |].
  repeat split. discriminate.
Qed.

(** Where the sentinel goes: the constructor stores the field under [name],
    [asBoom] reads [fieldname], which no one assigns.  [ErrorDuplicate]
    stores and reads [fieldname]. *)
Lemma ErrorNotFound_field_in_name (field message status : value) :
  this_get (ErrorNotFound field message status) "name"
  = default (VString "no name") field
  /\ this_get (ErrorNotFound field message status) "fieldname" = VUndefined
  /\ conversion_details (ErrorNotFound field message status)
     = Some (VObject [("fieldname", VUndefined)]).
Proof. destruct field, message; repeat split; reflexivity. Qed.

Lemma ErrorDuplicate_field_in_fieldname (fieldname message status : value) :
  this_get (ErrorDuplicate fieldname message status) "fieldname"
  = default (VString "no name") fieldname.
Proof. destruct fieldname, message; reflexivity. Qed.

(** ** Foreign errors *)

(** C4 (as amended): a value without a usable [asBoom] whose [name] is
    ["CastError"] converts to a 409 whose [details] are
    [{fieldname: path, message: message}], the key in lower case; nothing
    is written to the console. *)
Theorem C4_CastError_conversion
    (v a p m request : value) (out : console) :
  get_property v "asBoom" = Normal a ->
  truthy a = false ->
  get_property v "name" = Normal (VString "CastError") ->
  get_property v "path" = Normal p ->
  get_property v "message" = Normal m ->
  exists b,
    toBoomError (Foreign v) request out = (Normal b, out)
    /\ Boom.statusCode (Boom.output b) = 409
    /\ get (Boom.payload (Boom.output b)) "statusCode" = VNumber 409
    /\ lookup "details" (Boom.payload (Boom.output b))
       = Some (VObject [("fieldname", p); ("message", m)]).
Proof.
  intros Ha Hf Hn Hp Hm.
  run_toBoomError.
  rewrite Ha, Hf, Hn; simpl. rewrite Hp, Hm.
  eexists. split; [reflexivity |]. repeat split.
Qed.

Lemma C4_CastError_conversion_witness :
  exists b,
    toBoomError
      (Foreign (VObject [("name", VString "CastError");
                         ("path", VString "age");
                         ("message", VString "bad type")]))
      VUndefined [] = (Normal b, [])
    /\ Boom.statusCode (Boom.output b) = 409
    /\ get (Boom.payload (Boom.output b)) "statusCode" = VNumber 409
    /\ lookup "details" (Boom.payload (Boom.output b))
       = Some (VObject [("fieldname", VString "age");
                        ("message", VString "bad type")]).
Proof.
  apply (C4_CastError_conversion
           (VObject [("name", VString "CastError");
                     ("path", VString "age");
                     ("message", VString "bad type")])
           VUndefined (VString "age") (VString "bad type") VUndefined []);
    reflexivity.
Defined.

(** C4, as stated, fails on [{name: "CastError", path: "age", message:
    "bad type"}]: the [details] are not [{fieldName: "age", message:
    "bad type"}], they have no [fieldName]. *)
Lemma C4_CastError_details_key_is_fieldname :
  exists b d,
    fst (toBoomError
           (Foreign (VObject [("name", VString "CastError");
                              ("path", VString "age");
                              ("message", VString "bad type")]))
           VUndefined []) = Normal b
    /\ lookup "details" (Boom.payload (Boom.output b)) = Some (VObject d)
    /\ VObject d <> VObject [("fieldName", VString "age");
                             ("message", VString "bad type")]
    /\ get d "fieldName" = VUndefined
    /\ get d "fieldname" = VString "age".
Proof.
  eexists; eexists.
  split; [reflexivity |]. split; [reflexivity |].
  repeat split. discriminate.
Qed.

(** C5 (as amended): a value without a usable [asBoom] whose [name] is
    missing or is not ["CastError"] converts to [Boom.badImplementation] of
    its message: a 500 built from the message alone.  The message, when it
    is a non-empty string, is the message of the Boom error; the payload
    does not carry it: its [message] is the fixed text
    ["An internal server error occurred"], beside [statusCode] and [error],
    and it has no [details].  The call adds one entry to the console, the
    tag and the message. *)
Theorem C5_unclassified_conversion
    (v a n m request : value) (out : console) :
  get_property v "asBoom" = Normal a ->
  truthy a = false ->
  get_property v "name" = Normal n ->
  is_string "CastError" n = false ->
  get_property v "message" = Normal m ->
  toBoomError (Foreign v) request out
  = (Normal (Boom.badImplementation m),
     (out ++ [[VString "[Error undefined]:"; m]])%list)
  /\ Boom.statusCode (Boom.output (Boom.badImplementation m)) = 500
  /\ get (Boom.payload (Boom.output (Boom.badImplementation m))) "statusCode"
     = VNumber 500
  /\ (forall s, m = VString s -> s <> "" ->
      Boom.message (Boom.badImplementation m) = s)
  /\ get (Boom.payload (Boom.output (Boom.badImplementation m))) "message"
     = VString "An internal server error occurred"
  /\ keys (Boom.payload (Boom.output (Boom.badImplementation m)))
     = ["statusCode"; "error"; "message"]
  /\ lookup "details" (Boom.payload (Boom.output (Boom.badImplementation m)))
     = None.
Proof.
  intros Ha Hf Hn Hs Hm.
  split.
  - run_toBoomError.
    rewrite Ha, Hf, Hn, Hs, Hm. reflexivity.
  - rewrite BoomFacts.badImplementation_eq; simpl.
    repeat split.
    intros s -> Hne. now apply BoomFacts.boom_message_string.
Qed.

Lemma C5_unclassified_conversion_witness :
  toBoomError (Foreign (VObject [("message", VString "bad type")]))
    VUndefined []
  = (Normal (Boom.badImplementation (VString "bad type")),
     [[VString "[Error undefined]:"; VString "bad type"]])
  /\ Boom.statusCode
       (Boom.output (Boom.badImplementation (VString "bad type"))) = 500
  /\ Boom.message (Boom.badImplementation (VString "bad type")) = "bad type"
  /\ get (Boom.payload
            (Boom.output (Boom.badImplementation (VString "bad type"))))
       "message" = VString "An internal server error occurred"
  /\ lookup "details"
       (Boom.payload
          (Boom.output (Boom.badImplementation (VString "bad type"))))
     = None.
Proof.
  destruct (C5_unclassified_conversion
              (VObject [("message", VString "bad type")])
              VUndefined VUndefined (VString "bad type") VUndefined []
              eq_refl eq_refl eq_refl eq_refl eq_refl)
    as (Hconv & Hstatus & _ & Hmessage & Hpayload & _ & Hdetails).
  split; [exact Hconv |]. split; [exact Hstatus |].
  split; [apply Hmessage; [reflexivity | discriminate] |].
  split; [exact Hpayload | exact Hdetails].
Defined.

(** C5, as stated, fails on [{message: "bad type"}]: the payload of the
    conversion, where the status and the absence of [details] are read,
    does not carry the original message; its [message] is Boom's fixed
    text for a 500. *)
Lemma C5_payload_hides_original_message :
  exists b,
    fst (toBoomError (Foreign (VObject [("message", VString "bad type")]))
           VUndefined []) = Normal b
    /\ get (Boom.payload (Boom.output b)) "statusCode" = VNumber 500
    /\ get (Boom.payload (Boom.output b)) "message"
       = VString "An internal server error occurred"
    /\ get (Boom.payload (Boom.output b)) "message" <> VString "bad type".
Proof.
  eexists. split; [reflexivity |].
  split; [reflexivity |]. split; [reflexivity |].
  vm_compute. discriminate.
Qed.

(** What the transport shows of a 500: the payload carries a fixed text,
    the message stays on the Boom error. *)
Lemma badImplementation_payload_message (m : value) :
  get (Boom.payload (Boom.output (Boom.badImplementation m))) "message"
  = VString "An internal server error occurred".
Proof. now rewrite BoomFacts.badImplementation_eq. Qed.

(** The conversion throws only on [undefined] and [null], which have no
    properties, and on an object whose [asBoom] is a truthy value, which is
    not a function. *)
Lemma toBoomError_returns (err : thrown) (request : value) (out : console) :
  match err with
  | Domain e =>
      match lookup "asBoom" (own e) with
      | Some m => truthy m = false
      | None => True
      end
  | Foreign VUndefined | Foreign VNull => False
  | Foreign (VObject o) => truthy (get o "asBoom") = false
  | Foreign _ => True
  end ->
  exists b out', toBoomError err request out = (Normal b, out').
Proof.
  destruct err as [e | v].
  - run_toBoomError.
    destruct (lookup "asBoom" (own e)) as [m |];
      [| intros _; eexists; eexists; reflexivity].
    intros ->.
    destruct (is_string "CastError" (this_get e "name"));
      eexists; eexists; reflexivity.
  - destruct v; try contradiction;
      try (intros _; eexists; eexists; reflexivity).
    intros Hf. run_toBoomError; simpl.
    rewrite Hf.
    destruct (is_string "CastError" (get fields "name"));
      eexists; eexists; reflexivity.
Qed.

(** ** Reading the aggregator *)

Lemma array_index_outside (l : list value) (index : Z) :
  index < 0 \/ Z.of_nat (List.length l) <= index ->
  array_index l index = VUndefined.
Proof.
  intros H. unfold array_index.
  destruct (index <? 0) eqn:E; [reflexivity |].
  apply Z.ltb_ge in E. apply nth_overflow. lia.
Qed.

Lemma aggregator_length (e : instance) (message status : value)
    (records : list value) :
  aggregator e message status records ->
  length e = Normal (VNumber (Z.of_nat (List.length records))).
Proof. intros [_ _ _ He]. unfold length. now rewrite He. Qed.

Lemma aggregator_error (e : instance) (message status : value)
    (records : list value) (index : Z) :
  aggregator e message status records ->
  error e index = Normal (array_index records index).
Proof. intros [_ _ _ He]. unfold error. now rewrite He. Qed.

(** C6 (as amended): on an aggregator that starts empty, after
    [add (k1, f1, m1)] and [add (k2, f2, m2)] the length is 2 and
    [error (0)] and [error (1)] return the two records as they were added;
    at every index outside the stored records [error] returns [undefined],
    it does not fail. *)
Theorem C6_two_adds
    (message status k1 f1 m1 k2 f2 m2 : value) :
  instanceof_Object message = false ->
  exists e,
    (e0 <- ErrorDataError message status ;;
     e1 <- add e0 k1 f1 m1 VUndefined ;;
     add e1 k2 f2 m2 VUndefined) = Normal e
    /\ length e = Normal (VNumber 2)
    /\ error e 0 = Normal (record (k1, f1, m1, VUndefined))
    /\ error e 1 = Normal (record (k2, f2, m2, VUndefined))
    /\ forall index, index < 0 \/ 2 <= index ->
                     error e index = Normal VUndefined.
Proof.
  intros Hprim.
  destruct (ErrorDataError_returns message status) as (e0 & Hnew & Hagg0 & _).
  assert (Hseed : seed message = []) by (destruct message; easy).
  rewrite Hseed in Hagg0.
  destruct (add_aggregator e0 _ _ _ k1 f1 m1 VUndefined Hagg0)
    as (e1 & Hadd1 & Hagg1 & _).
  destruct (add_aggregator e1 _ _ _ k2 f2 m2 VUndefined Hagg1)
    as (e2 & Hadd2 & Hagg2 & _).
  exists e2. rewrite Hnew; cbn [bind]. rewrite Hadd1; cbn [bind].
  split; [exact Hadd2 |].
  rewrite (aggregator_length _ _ _ _ Hagg2).
  rewrite !(aggregator_error _ _ _ _ _ Hagg2).
  repeat split.
  intros index Hout. rewrite (aggregator_error _ _ _ _ _ Hagg2).
  now rewrite array_index_outside.
Qed.

Lemma C6_two_adds_witness :
  exists e,
    (e0 <- ErrorDataError VUndefined VUndefined ;;
     e1 <- add e0 (VString "required") (VString "age") (VString "missing")
             VUndefined ;;
     add e1 (VString "format") (VString "email") (VString "not an address")
       VUndefined) = Normal e
    /\ length e = Normal (VNumber 2)
    /\ error e 0
       = Normal (record (VString "required", VString "age",
                         VString "missing", VUndefined))
    /\ error e 2 = Normal VUndefined.
Proof.
  destruct (C6_two_adds VUndefined VUndefined
              (VString "required") (VString "age") (VString "missing")
              (VString "format") (VString "email") (VString "not an address")
              eq_refl)
    as (e & Hrun & Hlen & H0 & _ & Hout).
  exists e. repeat split; try assumption.
  apply Hout. right. lia.
Defined.

(** C6, as stated, fails at [error (2)] after two [add]s: the call returns
    [undefined], it does not throw. *)
Lemma C6_error_out_of_range_returns_undefined :
  exists e,
    (e0 <- ErrorDataError VUndefined VUndefined ;;
     e1 <- add e0 (VString "required") (VString "age") (VString "missing")
             VUndefined ;;
     add e1 (VString "format") (VString "email") (VString "not an address")
       VUndefined) = Normal e
    /\ length e = Normal (VNumber 2)
    /\ error e 2 = Normal VUndefined
    /\ throws (error e 2) = false.
Proof.
  eexists. split; [reflexivity |]. repeat split.
Qed.

(** ** Constructors that cannot throw, and the one that can *)

Lemma new_returns (C : Class.t) (args : list value) :
  C <> Class.ErrorFieldNotAllowed ->
  exists e, new C args = Normal e.
Proof.
  intros HC. destruct C; try congruence;
    try (eexists; reflexivity).
  destruct (ErrorDataError_returns (arg args 0) (arg args 1)) as (e & H & _).
  exists e. exact H.
Qed.

(** The sentinels of the constructors that default their structured
    field. *)
Lemma sentinels :
  this_get (ErrorNotFound VUndefined VUndefined VUndefined) "name"
  = VString "no name"
  /\ this_get (ErrorDuplicate VUndefined VUndefined VUndefined) "fieldname"
     = VString "no name"
  /\ this_get (ErrorDocumentNotFound VUndefined VUndefined VUndefined)
       "document" = VString ""
  /\ this_get (ErrorFieldNotFound VUndefined VUndefined VUndefined)
       "fieldName" = VString ""
  /\ this_get (ErrorFieldNotValid VUndefined VUndefined VUndefined)
       "fieldname" = VString ""
  /\ this_get (ErrorFile VUndefined VUndefined VUndefined) "document"
     = VString "".
Proof. repeat split. Qed.

(** [ErrorFieldNotAllowed] throws exactly when it has to render its
    template, no truthy message being given, and [fields] is not an
    array. *)
Lemma ErrorFieldNotAllowed_throws (fields message status : value) :
  throws (ErrorFieldNotAllowed fields message status)
  = negb (truthy (default (VBool false) message))
    && match fields with VArray _ => false | _ => true end.
Proof.
  unfold ErrorFieldNotAllowed.
  destruct (truthy (default (VBool false) message)); simpl;
    [reflexivity | destruct fields; reflexivity].
Qed.

(** C7 fails on [ErrorFieldNotAllowed]: with [fields] left out the
    constructor throws a [TypeError], reading [length] of [undefined],
    where every other constructor substitutes a default. *)
Theorem C7_FieldNotAllowed_without_fields_throws :
  new Class.ErrorFieldNotAllowed []
  = Throw (TypeError "Cannot read properties of undefined (reading 'length')")
  /\ throws (ErrorFieldNotAllowed VUndefined VUndefined VUndefined) = true.
Proof. split; reflexivity. Qed.

(** ** The message of [ErrorFieldNotAllowed] *)

Lemma prefix_append (s t : string) : String.prefix s (s ++ t) = true.
Proof.
  induction s as [|c s IH]; simpl.
  - now destruct t.
  - destruct (ascii_dec c c); [exact IH | congruence].
Qed.

Lemma contains_prefix (sub s : string) :
  String.prefix sub s = true -> contains sub s = true.
Proof. intros H. destruct s; cbn [contains]; now rewrite H. Qed.

Lemma contains_append (a sub b : string) :
  contains sub (a ++ sub ++ b) = true.
Proof.
  induction a as [|c a IH]; cbn [append contains].
  - apply contains_prefix, prefix_append.
  - rewrite IH. apply orb_true_r.
Qed.

Lemma ErrorFieldNotAllowed_array
    (l : list value) (message status : value) :
  truthy (default (VBool false) message) = false ->
  exists e,
    ErrorFieldNotAllowed (VArray l) message status = Normal e
    /\ this_get e "message"
       = VString ("field" ++ (if Z.of_nat (List.length l) >? 1 then "s" else "")
                  ++ " " ++ dquote ++ join ", " l ++ dquote ++ " not defined")
    /\ this_get e "fields" = VArray l.
Proof.
  intros Hf. unfold ErrorFieldNotAllowed. rewrite Hf; simpl.
  eexists. split; [reflexivity |]. split; reflexivity.
Qed.

(** C8 (as amended): without a message, the field list [["a", "b"]]
    renders [fields "a, b" not defined], which contains the two names
    joined and the plural; any list of two names or more renders the plural
    around its names joined by a comma and a space; the empty list renders
    [field "" not defined], in the singular, and the constructor
    returns. *)
Theorem C8_FieldNotAllowed_message (status : value) :
  (exists e,
     new Class.ErrorFieldNotAllowed
       [VArray [VString "a"; VString "b"]; VUndefined; status] = Normal e
     /\ this_get e "message"
        = VString ("fields " ++ dquote ++ "a, b" ++ dquote ++ " not defined")
     /\ contains "a, b" (ToString (this_get e "message")) = true
     /\ contains "fields" (ToString (this_get e "message")) = true)
  /\ (forall x y rest,
        exists e,
          new Class.ErrorFieldNotAllowed
            [VArray (x :: y :: rest); VUndefined; status] = Normal e
          /\ this_get e "message"
             = VString ("fields " ++ dquote ++ join ", " (x :: y :: rest)
                        ++ dquote ++ " not defined")
          /\ join ", " (x :: y :: rest)
             = (join_elem x ++ ", " ++ join ", " (y :: rest))%string
          /\ contains (join ", " (x :: y :: rest))
               (ToString (this_get e "message")) = true)
  /\ (exists e,
        new Class.ErrorFieldNotAllowed [VArray []; VUndefined; status]
        = Normal e
        /\ this_get e "message"
           = VString ("field " ++ dquote ++ dquote ++ " not defined")).
Proof.
  split; [| split].
  - eexists. split; [reflexivity |]. repeat split.
  - intros x y rest.
    destruct (ErrorFieldNotAllowed_array (x :: y :: rest) VUndefined status
                eq_refl) as (e & Hnew & Hmsg & _).
    exists e. split; [exact Hnew |].
    assert (Hplural : (Z.of_nat (List.length (x :: y :: rest)) >? 1) = true).
    { apply Z.gtb_lt. simpl List.length. lia. }
    rewrite Hplural in Hmsg. rewrite Hmsg.
    split; [reflexivity |]. split; [reflexivity |].
    cbn [ToString].
    change ("field" ++ "s" ++ " " ++ dquote ++ join ", " (x :: y :: rest)
            ++ dquote ++ " not defined")%string
      with (("fields " ++ dquote) ++ join ", " (x :: y :: rest)
            ++ dquote ++ " not defined")%string.
    apply contains_append.
  - eexists. split; reflexivity.
Qed.

(** C8, as stated, fails on the empty list: the message is
    [field "" not defined], not [fields "" not defined]. *)
Lemma C8_empty_list_renders_singular :
  exists e,
    new Class.ErrorFieldNotAllowed [VArray []] = Normal e
    /\ this_get e "message"
       = VString ("field " ++ dquote ++ dquote ++ " not defined")
    /\ this_get e "message"
       <> VString ("fields " ++ dquote ++ dquote ++ " not defined").
Proof.
  eexists. split; [reflexivity |]. split; [reflexivity |].
  vm_compute. discriminate.
Qed.

(** ** AccessDenied *)

(** C9: whatever message and status [ErrorAccessDenied] is constructed
    with, its conversion has status 403; the status given at construction
    stays in [boomStatus] and plays no part. *)
Theorem C9_AccessDenied_converts_to_403
    (message status request : value) (out : console) :
  new Class.ErrorAccessDenied [message; status]
  = Normal (ErrorAccessDenied message status)
  /\ toBoomError (Domain (ErrorAccessDenied message status)) request out
     = (Normal (asBoom (ErrorAccessDenied message status)), out)
  /\ Boom.statusCode (Boom.output (asBoom (ErrorAccessDenied message status)))
     = 403
  /\ get (Boom.payload
            (Boom.output (asBoom (ErrorAccessDenied message status))))
       "statusCode" = VNumber 403
  /\ this_get (ErrorAccessDenied message status) "boomStatus"
     = default (VNumber 500) status.
Proof.
  rewrite asBoom_statusCode, asBoom_payload_statusCode.
  split; [reflexivity |]. split.
  - apply toBoomError_Domain. unfold ErrorAccessDenied; cbv zeta.
    now inherits.
  - repeat split. destruct message; reflexivity.
Qed.

(** ** FieldNotValid *)

Lemma is_false_other (message : value) :
  message <> VBool false -> is_false message = false.
Proof.
  intros H. destruct message as [| |[|]| | | |]; try reflexivity. congruence.
Qed.

(** C10: for a field name [f], [new ErrorFieldNotValid (f, false)] has
    message [f] and converts to a 409 whose [details] are
    [{fieldname: " -- no field --", message: f}]; with any other message
    argument the instance's message is that argument as a string,
    ["data not valid"] when it is left out, and [details.fieldname] is
    [f]. *)
Theorem C10_FieldNotValid
    (f : string) (status request : value) (out : console) :
  (this_get (ErrorFieldNotValid (VString f) (VBool false) status) "message"
   = VString f
   /\ exists b,
        toBoomError
          (Domain (ErrorFieldNotValid (VString f) (VBool false) status))
          request out = (Normal b, out)
        /\ Boom.statusCode (Boom.output b) = 409
        /\ lookup "details" (Boom.payload (Boom.output b))
           = Some (VObject [("fieldname", VString " -- no field --");
                            ("message", VString f)]))
  /\ (forall message,
        message <> VBool false ->
        this_get (ErrorFieldNotValid (VString f) message status) "message"
        = VString (ToString (default (VString "data not valid") message))
        /\ exists b d,
             toBoomError
               (Domain (ErrorFieldNotValid (VString f) message status))
               request out = (Normal b, out)
             /\ Boom.statusCode (Boom.output b) = 409
             /\ lookup "details" (Boom.payload (Boom.output b))
                = Some (VObject d)
             /\ get d "fieldname" = VString f)
  /\ this_get (ErrorFieldNotValid (VString f) VUndefined status) "message"
     = VString "data not valid"
  /\ (forall m : string,
        this_get (ErrorFieldNotValid (VString f) (VString m) status) "message"
        = VString m).
Proof.
  split; [| split; [| split]].
  - split; [reflexivity |].
    eexists. split; [reflexivity |].
    rewrite asBoom_statusCode, asBoom_payload_details. split; reflexivity.
  - intros message Hne. apply is_false_other in Hne.
    assert (Hd : is_false (default (VString "data not valid") message) = false)
      by (destruct message; easy).
    assert (Hu : is_undefined (default (VString "data not valid") message)
                 = false) by (destruct message; easy).
    split.
    + unfold ErrorFieldNotValid. cbn [default is_undefined].
      rewrite Hd. unfold ErrorBase, Error. rewrite Hu. reflexivity.
    + eexists; eexists.
      split; [apply toBoomError_Domain; unfold ErrorFieldNotValid; cbv zeta;
              now inherits |].
      rewrite asBoom_statusCode, asBoom_payload_details.
      split; [reflexivity |].
      unfold conversion_details. cbn [class ErrorFieldNotValid this_set].
      split; [reflexivity |].
      unfold ErrorFieldNotValid. cbn [default is_undefined].
      rewrite Hd. unfold ErrorBase, Error. rewrite Hu. reflexivity.
  - reflexivity.
  - intros m. reflexivity.
Qed.

Lemma C10_FieldNotValid_witness :
  VString "too long" <> VBool false
  /\ this_get
       (ErrorFieldNotValid (VString "title") (VString "too long") VUndefined)
       "message" = VString "too long"
  /\ this_get
       (ErrorFieldNotValid (VString "title") (VBool false) VUndefined)
       "message" = VString "title".
Proof.
  destruct (C10_FieldNotValid "title" VUndefined VUndefined [])
    as ((Hfalse & _) & Hother & _).
  split; [discriminate |].
  split; [| exact Hfalse].
  exact (proj1 (Hother (VString "too long") ltac:(discriminate))).
Defined.

(** ** Further properties of the constructors *)

(** Runs [new] on a class that has been fixed. *)
Ltac run_new := unfold new; cbv zeta.

Lemma new_stores_message (C : Class.t) (args : list value) (m : string) :
  m <> "" ->
  arg args (message_position C) = VString m ->
  exists e, new C args = Normal e /\ this_get e "message" = VString m.
Proof.
  intros Hm Harg. apply String.eqb_neq in Hm.
  destruct C; cbn [message_position] in Harg; run_new; rewrite Harg;
    try (eexists; split; reflexivity).
  unfold ErrorFieldNotAllowed; simpl; rewrite Hm; simpl.
  eexists; split; reflexivity.
Qed.

(** X1: a non-empty string given as message is the instance's message,
    for every class and whatever the other arguments; with a message the
    construction always returns. *)
Theorem X1_message_round_trip
    (C : Class.t) (args : list value) (m : string) :
  m <> "" ->
  arg args (message_position C) = VString m ->
  exists e,
    new C args = Normal e
    /\ class e = C
    /\ this_get e "message" = VString m.
Proof.
  intros Hm Harg.
  destruct (new_stores_message C args m Hm Harg) as (e & Hnew & Hmsg).
  exists e. repeat split; try assumption. now apply new_class with args.
Qed.

Lemma X1_message_round_trip_witness :
  exists e,
    new Class.ErrorDuplicate [VString "email"; VString "already taken"]
    = Normal e
    /\ class e = Class.ErrorDuplicate
    /\ this_get e "message" = VString "already taken".
Proof.
  apply (X1_message_round_trip Class.ErrorDuplicate
           [VString "email"; VString "already taken"] "already taken");
    [discriminate | reflexivity].
Defined.

Lemma new_message_of (C : Class.t) (args : list value) (m : string)
    (e : instance) :
  m <> "" ->
  arg args (message_position C) = VString m ->
  new C args = Normal e ->
  class e = C /\ this_get e "message" = VString m.
Proof.
  intros Hm Harg Hnew.
  destruct (new_stores_message C args m Hm Harg) as (e' & Hnew' & Hmsg).
  rewrite Hnew in Hnew'. inversion Hnew'; subst e'.
  split; [now apply new_class with args | exact Hmsg].
Qed.

(** X2: the message given at construction is never lost by the conversion.
    It is the message of the Boom error and of its payload, except for
    Duplicate, FieldNotValid and File, whose Boom error has a text of its
    own ("duplicate", "not valid", "file not found") and carries the
    instance's message as [details.message]. *)
Theorem X2_message_survives_conversion
    (C : Class.t) (args : list value) (m : string) (e : instance) :
  m <> "" ->
  arg args (message_position C) = VString m ->
  new C args = Normal e ->
  match fixed_text C with
  | Some text =>
      Boom.message (asBoom e) = text
      /\ get (Boom.payload (Boom.output (asBoom e))) "message" = VString text
      /\ exists d,
           lookup "details" (Boom.payload (Boom.output (asBoom e)))
           = Some (VObject d)
           /\ get d "message" = VString m
  | None =>
      Boom.message (asBoom e) = m
      /\ get (Boom.payload (Boom.output (asBoom e))) "message" = VString m
  end.
Proof.
  intros Hm Harg Hnew.
  destruct (new_message_of C args m e Hm Harg Hnew) as [Hc Hmsg].
  pose proof (BoomFacts.boom_message_string m) as Hboom.
  rewrite asBoom_payload_details, asBoom_eq.
  unfold conversion_message, conversion_details, boom_payload.
  rewrite Hc, Hmsg.
  destruct C; cbn -[boom_message]; rewrite ?Hboom by assumption;
    repeat split; try reflexivity;
    eexists; split; reflexivity.
Qed.

Lemma X2_message_survives_conversion_witness :
  Boom.message
    (asBoom (ErrorNotFound (VString "user") (VString "no such user")
               VUndefined))
  = "no such user"
  /\ get (Boom.payload
            (Boom.output
               (asBoom (ErrorNotFound (VString "user")
                          (VString "no such user") VUndefined))))
       "message" = VString "no such user".
Proof.
  exact (X2_message_survives_conversion Class.ErrorNotFound
           [VString "user"; VString "no such user"] "no such user"
           (ErrorNotFound (VString "user") (VString "no such user") VUndefined)
           ltac:(discriminate) eq_refl eq_refl).
Defined.

(** ** What the conversion reads *)




(** ** What the constructors store *)

Lemma ErrorBase_boomStatus (C : Class.t) (message status : value) :
  this_get (ErrorBase C message status) "boomStatus"
  = default (VNumber 500) status.
Proof. destruct message; reflexivity. Qed.

Lemma ErrorBase_unset (C : Class.t) (message status : value) (k : string) :
  k <> "message" -> k <> "boomStatus" -> k <> "name" ->
  this_get (ErrorBase C message status) k = VUndefined.
Proof.
  intros Hm Hb Hn.
  apply String.eqb_neq in Hm, Hb, Hn.
  unfold this_get, ErrorBase, Error, this_set; simpl.
  destruct (is_undefined message); simpl; rewrite ?Hm, ?Hb, ?Hn; reflexivity.
Qed.

Lemma ErrorBase_name (C : Class.t) (message status : value) :
  this_get (ErrorBase C message status) "name" = VString "Error".
Proof. destruct message; reflexivity. Qed.

(** Reads a property through the assignments of a constructor. *)
Ltac read_own :=
  repeat first
    [ rewrite this_get_set_same
    | rewrite this_get_set_other by discriminate ];
  rewrite ?ErrorBase_boomStatus, ?ErrorBase_name;
  rewrite ?ErrorBase_unset by discriminate;
  try reflexivity.

Lemma ErrorFieldNotAllowed_inv (fields message status : value) (e : instance) :
  ErrorFieldNotAllowed fields message status = Normal e ->
  exists m,
    e = this_set
          (this_set (ErrorBase Class.ErrorFieldNotAllowed m status)
             "type" (VString "ErrorFieldNotAllowed"))
          "fields" fields.
Proof.
  unfold ErrorFieldNotAllowed.
  destruct (truthy (default (VBool false) message)); simpl.
  - intros H; inversion H. eexists; reflexivity.
  - destruct (fields_template fields); simpl; intros H; inversion H.
    eexists; reflexivity.
Qed.

(** X4: the status a constructor stores in [boomStatus] is the one it is
    given, 500 when it is left out; [ErrorNotFound] and [ErrorTyped] do not
    pass a status on and always store 500. *)
Theorem X4_stored_status (C : Class.t) (args : list value) (e : instance) :
  C <> Class.ErrorDataError ->
  new C args = Normal e ->
  this_get e "boomStatus"
  = match C with
    | Class.ErrorNotFound | Class.ErrorTyped => VNumber 500
    | _ => default (VNumber 500) (arg args (status_position C))
    end.
Proof.
  intros HC Hnew.
  destruct C; try congruence; revert Hnew; run_new;
    try (intros Hnew; inversion Hnew; subst e;
         unfold ErrorNotImplemented, ErrorTyped, ErrorNotFound,
           ErrorDuplicate, ErrorAccessDenied, ErrorDocumentNotFound,
           ErrorFieldNotFound, ErrorFieldNotValid, ErrorFile,
           ErrorBadRequest, ErrorServerError, ErrorUnknown;
         cbv zeta; now read_own).
  intros Hnew. apply ErrorFieldNotAllowed_inv in Hnew as (m & ->).
  now read_own.
Qed.

Lemma X4_stored_status_witness :
  this_get (ErrorDuplicate (VString "email") VUndefined (VNumber 409))
    "boomStatus" = VNumber 409
  /\ this_get (ErrorNotFound (VString "email") VUndefined (VNumber 410))
       "boomStatus" = VNumber 500.
Proof.
  split.
  - exact (X4_stored_status Class.ErrorDuplicate
             [VString "email"; VUndefined; VNumber 409]
             (ErrorDuplicate (VString "email") VUndefined (VNumber 409))
             ltac:(discriminate) eq_refl).
  - exact (X4_stored_status Class.ErrorNotFound
             [VString "email"; VUndefined; VNumber 410]
             (ErrorNotFound (VString "email") VUndefined (VNumber 410))
             ltac:(discriminate) eq_refl).
Defined.

(** X5: the discriminators do not depend on the arguments.  Every
    constructor but those of [ErrorBase] and of the aggregator stores its
    class name in [type] ([ErrorTyped] its first argument); the aggregator
    has no [type] and names itself in [name]; [ErrorNotFound] stores its
    field in [name]; every other instance has the [name] of [Error]. *)
Theorem X5_discriminators (C : Class.t) (args : list value) (e : instance) :
  new C args = Normal e ->
  this_get e "type" = kind C (arg args 0)
  /\ this_get e "name"
     = match C with
       | Class.ErrorDataError => VString "ErrorDataError"
       | Class.ErrorNotFound => default (VString "no name") (arg args 0)
       | _ => VString "Error"
       end.
Proof.
  intros Hnew.
  destruct C; revert Hnew; run_new;
    try (intros Hnew; inversion Hnew; subst e;
         unfold ErrorNotImplemented, ErrorTyped, ErrorNotFound,
           ErrorDuplicate, ErrorAccessDenied, ErrorDocumentNotFound,
           ErrorFieldNotFound, ErrorFieldNotValid, ErrorFile,
           ErrorBadRequest, ErrorServerError, ErrorUnknown;
         cbv zeta; cbn [kind]; split; now read_own).
  - intros Hnew. apply ErrorFieldNotAllowed_inv in Hnew as (m & ->).
    cbn [kind]; split; now read_own.
  - unfold ErrorDataError.
    destruct (arg args 0); simpl; intros Hnew; inversion Hnew; subst e;
      split; now read_own.
Qed.

Lemma X5_discriminators_witness :
  this_get (ErrorTyped (VString "Quota") (VString "too many")) "type"
  = VString "Quota"
  /\ this_get (ErrorTyped (VString "Quota") (VString "too many")) "name"
     = VString "Error".
Proof.
  exact (X5_discriminators Class.ErrorTyped
           [VString "Quota"; VString "too many"]
           (ErrorTyped (VString "Quota") (VString "too many")) eq_refl).
Defined.

(** ** The structured field in [details] *)

(** X6: the first argument of Duplicate, DocumentNotFound, FieldNotFound
    and File reaches the [details] of the conversion unchanged, under
    [fieldname], [document], [fieldName] and [document]; left out, it is
    ["no name"] for Duplicate and the empty string for the others. *)
Theorem X6_field_reaches_details
    (C : Class.t) (key sentinel : string) (args : list value) (e : instance) :
  field_key C = Some (key, sentinel) ->
  new C args = Normal e ->
  exists d,
    lookup "details" (Boom.payload (Boom.output (asBoom e)))
    = Some (VObject d)
    /\ get d key = default (VString sentinel) (arg args 0).
Proof.
  intros Hkey Hnew.
  rewrite asBoom_payload_details. unfold conversion_details.
  destruct C; try discriminate; inversion Hkey; subst key sentinel;
    revert Hnew; run_new; intros Hnew; inversion Hnew; subst e;
    cbn [class ErrorDuplicate ErrorDocumentNotFound ErrorFieldNotFound
           ErrorFile this_set];
    eexists; (split; [reflexivity |]);
    unfold get; cbn [lookup String.eqb Ascii.eqb Bool.eqb];
    unfold ErrorDuplicate, ErrorDocumentNotFound, ErrorFieldNotFound,
      ErrorFile; cbv zeta; now read_own.
Qed.

Lemma X6_field_reaches_details_witness :
  exists d,
    lookup "details"
      (Boom.payload
         (Boom.output (asBoom (ErrorFile (VString "a.txt") VUndefined
                                 VUndefined))))
    = Some (VObject d)
    /\ get d "document" = VString "a.txt".
Proof.
  exact (X6_field_reaches_details Class.ErrorFile "document" ""
           [VString "a.txt"]
           (ErrorFile (VString "a.txt") VUndefined VUndefined)
           eq_refl eq_refl).
Defined.

(** X7: the field given to [ErrorNotFound] does not reach the conversion:
    whatever the arguments, [details] is [{fieldname: undefined}]; the
    field, ["no name"] when left out, is on the instance as [name]. *)
Theorem X7_NotFound_field_stays_on_instance
    (field message status : value) :
  lookup "details"
    (Boom.payload (Boom.output (asBoom (ErrorNotFound field message status))))
  = Some (VObject [("fieldname", VUndefined)])
  /\ this_get (ErrorNotFound field message status) "name"
     = default (VString "no name") field
  /\ Boom.statusCode
       (Boom.output (asBoom (ErrorNotFound field message status))) = 404.
Proof.
  rewrite asBoom_payload_details, asBoom_statusCode.
  destruct (ErrorNotFound_field_in_name field message status)
    as (Hname & _ & Hdetails).
  repeat split; assumption.
Qed.

(** ** Further properties of [toBoomError] *)

Lemma conversion_status_not_500 (C : Class.t) : conversion_status C <> 500.
Proof. destruct C; discriminate. Qed.

Lemma badImplementation_statusCode (m : value) :
  Boom.statusCode (Boom.output (Boom.badImplementation m)) = 500.
Proof. now rewrite BoomFacts.badImplementation_eq. Qed.

(** [toBoomError] on a plain object, by cases. *)
Lemma toBoomError_object (o : object) (request : value) (out : console) :
  toBoomError (Foreign (VObject o)) request out
  = if truthy (get o "asBoom") then
      (Throw (TypeError "err.asBoom is not a function"), out)
    else if is_string "CastError" (get o "name") then
      (Normal (Boom.set_payload (Boom.conflict (VString "not valid"))
                 "details"
                 (VObject [("fieldname", get o "path");
                           ("message", get o "message")])),
       out)
    else
      (Normal (Boom.badImplementation (get o "message")),
       (out ++ [[VString "[Error undefined]:"; get o "message"]])%list).
Proof.
  run_toBoomError; cbn [get_property].
  destruct (truthy (get o "asBoom")); [reflexivity |].
  destruct (is_string "CastError" (get o "name")); reflexivity.
Qed.

(** [toBoomError] on an instance whose [asBoom] has been assigned, by
    cases. *)
Lemma toBoomError_shadowed
    (e : instance) (m request : value) (out : console) :
  lookup "asBoom" (own e) = Some m ->
  toBoomError (Domain e) request out
  = if truthy m then
      (Throw (TypeError "err.asBoom is not a function"), out)
    else if is_string "CastError" (this_get e "name") then
      (Normal (Boom.set_payload (Boom.conflict (VString "not valid"))
                 "details"
                 (VObject [("fieldname", this_get e "path");
                           ("message", this_get e "message")])),
       out)
    else
      (Normal (Boom.badImplementation (this_get e "message")),
       (out ++ [[VString "[Error undefined]:"; this_get e "message"]])%list).
Proof.
  intros Hm. run_toBoomError. rewrite Hm.
  destruct (truthy m); [reflexivity |].
  destruct (is_string "CastError" (this_get e "name")); reflexivity.
Qed.

(** X8: [toBoomError] throws on [undefined] and [null], whose properties
    cannot be read, and on an object, instance or not, whose own [asBoom]
    is truthy without being a method; on every other instance, on a
    boolean, a number, a string, an array and any other object it returns a
    Boom error.  What a constructor returns never makes it throw. *)
Theorem X8_toBoomError_throws
    (err : thrown) (request : value) (out : console) :
  throws (fst (toBoomError err request out))
  = match err with
    | Domain e =>
        match lookup "asBoom" (own e) with
        | Some m => truthy m
        | None => false
        end
    | Foreign VUndefined | Foreign VNull => true
    | Foreign (VObject o) => truthy (get o "asBoom")
    | Foreign _ => false
    end
  /\ (forall C args e,
        new C args = Normal e ->
        throws (fst (toBoomError (Domain e) request out)) = false).
Proof.
  split.
  - destruct err as [e | v].
    + destruct (lookup "asBoom" (own e)) as [m |] eqn:Hm.
      * rewrite (toBoomError_shadowed e m request out Hm).
        destruct (truthy m); [reflexivity |].
        destruct (is_string "CastError" (this_get e "name")); reflexivity.
      * now rewrite toBoomError_Domain.
    + destruct v; try reflexivity.
      rewrite toBoomError_object.
      destruct (truthy (get fields "asBoom")); [reflexivity |].
      destruct (is_string "CastError" (get fields "name")); reflexivity.
  - intros C args e Hnew.
    rewrite toBoomError_Domain; [reflexivity |].
    now apply new_inherits with C args.
Qed.

(** X9: the console and the status go together.  A call that throws
    leaves the console as it was; a call that returns either returns a
    status other than 500 and leaves the console as it was, or returns
    [Boom.badImplementation] of a message, with status 500, and appends
    exactly one entry, the tag and that message. *)
Theorem X9_console_entry_iff_500
    (err : thrown) (request : value) (out : console) :
  match fst (toBoomError err request out) with
  | Throw _ => snd (toBoomError err request out) = out
  | Normal b =>
      (Boom.statusCode (Boom.output b) <> 500
       /\ snd (toBoomError err request out) = out)
      \/ (exists m,
            b = Boom.badImplementation m
            /\ Boom.statusCode (Boom.output b) = 500
            /\ snd (toBoomError err request out)
               = (out ++ [[VString "[Error undefined]:"; m]])%list)
  end.
Proof.
  assert (Hconflict :
            forall d,
              Boom.statusCode
                (Boom.output
                   (Boom.set_payload (Boom.conflict (VString "not valid"))
                      "details" d)) <> 500).
  { intros d. cbn [Boom.set_payload Boom.output Boom.statusCode].
    unfold Boom.conflict. rewrite BoomFacts.create_statusCode.
    discriminate. }
  destruct err as [e | v].
  - destruct (lookup "asBoom" (own e)) as [m |] eqn:Hm.
    + rewrite (toBoomError_shadowed e m request out Hm).
      destruct (truthy m); [reflexivity |].
      destruct (is_string "CastError" (this_get e "name")); cbn [fst snd].
      * left. split; [apply Hconflict | reflexivity].
      * right. exists (this_get e "message").
        split; [reflexivity |]. split; [| reflexivity].
        apply badImplementation_statusCode.
    + rewrite toBoomError_Domain by assumption. cbn [fst snd].
      left. split; [| reflexivity].
      rewrite asBoom_statusCode. apply conversion_status_not_500.
  - destruct v; try reflexivity;
      try (right; exists VUndefined; repeat split; reflexivity).
    rewrite toBoomError_object.
    destruct (truthy (get fields "asBoom")); [reflexivity |].
    destruct (is_string "CastError" (get fields "name")); cbn [fst snd].
    + left. split; [| reflexivity].
      cbn [Boom.set_payload Boom.output Boom.statusCode].
      unfold Boom.conflict. rewrite BoomFacts.create_statusCode. discriminate.
    + right. exists (get fields "message").
      split; [reflexivity |]. split; [| reflexivity].
      apply badImplementation_statusCode.
Qed.

(** X10: a thrown boolean, number, string or array has none of the
    properties [toBoomError] reads: it converts to
    [Boom.badImplementation (undefined)], a 500 whose message is Boom's
    default for the status, and the console entry shows [undefined]; the
    value itself appears nowhere in the result. *)
Theorem X10_thrown_primitive_is_lost (request : value) (out : console) :
  let lost :=
    (Normal (Boom.badImplementation VUndefined),
     (out ++ [[VString "[Error undefined]:"; VUndefined]])%list) in
  (forall b, toBoomError (Foreign (VBool b)) request out = lost)
  /\ (forall n, toBoomError (Foreign (VNumber n)) request out = lost)
  /\ (forall s, toBoomError (Foreign (VString s)) request out = lost)
  /\ (forall l, toBoomError (Foreign (VArray l)) request out = lost)
  /\ Boom.message (Boom.badImplementation VUndefined)
     = "Internal Server Error".
Proof. repeat split. Qed.

(** ** Further properties of the aggregator *)

Lemma aggregator_run (message status : value)
    (rs : list (value * value * value * value)) :
  exists e,
    (e0 <- ErrorDataError message status ;; add_all e0 rs) = Normal e
    /\ aggregator e (aggregate_message message)
         (aggregate_status message status) (seed message ++ map record rs).
Proof.
  destruct (ErrorDataError_returns message status) as (e0 & Hnew & Hagg0 & _).
  destruct (add_all_aggregator rs e0 _ _ _ Hagg0) as (e & Hall & Hagg & _).
  exists e. rewrite Hnew; cbn [bind]. now split.
Qed.

Lemma array_index_nth (l : list value) (n : nat) :
  array_index l (Z.of_nat n) = nth n l VUndefined.
Proof.
  unfold array_index.
  destruct (Z.of_nat n <? 0) eqn:E; [apply Z.ltb_lt in E; lia |].
  now rewrite Nat2Z.id.
Qed.

(** X11: [add] never fails on an aggregator, the length is the number of
    records the constructor seeded (one for a descriptor, none otherwise)
    plus the number of [add]s, and each added record is read back by
    [error] at the position it was added at. *)
Theorem X11_add_then_error
    (message status : value)
    (before : list (value * value * value * value))
    (r : value * value * value * value)
    (after : list (value * value * value * value)) :
  exists e,
    (e0 <- ErrorDataError message status ;;
     add_all e0 (before ++ r :: after)) = Normal e
    /\ length e
       = Normal (VNumber (Z.of_nat (List.length (seed message)
                                    + List.length before + 1
                                    + List.length after)))
    /\ error e (Z.of_nat (List.length (seed message) + List.length before))
       = Normal (record r).
Proof.
  destruct (aggregator_run message status (before ++ r :: after))
    as (e & Hrun & Hagg).
  exists e. split; [exact Hrun |].
  rewrite (aggregator_length _ _ _ _ Hagg).
  rewrite (aggregator_error _ _ _ _ _ Hagg).
  rewrite map_app, app_assoc; cbn [map].
  split.
  - do 2 f_equal. rewrite !List.length_app, !List.length_map. simpl.
    rewrite List.length_map. lia.
  - rewrite array_index_nth. f_equal.
    rewrite app_nth2; rewrite List.length_app, List.length_map; [| lia].
    now rewrite Nat.sub_diag.
Qed.

(** X12: the aggregator is append-only: a record [error] returns at an
    index within the stored records is returned at that index after any
    further [add]s. *)
Theorem X12_append_only
    (message status : value)
    (rs more : list (value * value * value * value)) (index : Z) :
  0 <= index < Z.of_nat (List.length (seed message) + List.length rs) ->
  exists e1 e2,
    (e0 <- ErrorDataError message status ;; add_all e0 rs) = Normal e1
    /\ add_all e1 more = Normal e2
    /\ error e2 index = error e1 index
    /\ error e1 index
       = Normal (nth (Z.to_nat index) (seed message ++ map record rs)
                   VUndefined).
Proof.
  intros Hin.
  destruct (aggregator_run message status rs) as (e1 & Hrun & Hagg1).
  destruct (add_all_aggregator more e1 _ _ _ Hagg1) as (e2 & Hall & Hagg2 & _).
  exists e1, e2. split; [exact Hrun |]. split; [exact Hall |].
  rewrite (aggregator_error _ _ _ _ _ Hagg1).
  rewrite (aggregator_error _ _ _ _ _ Hagg2).
  unfold array_index.
  destruct (index <? 0) eqn:E; [apply Z.ltb_lt in E; lia |].
  split; [| reflexivity].
  f_equal. apply app_nth1.
  rewrite List.length_app, List.length_map. lia.
Qed.

Lemma X12_append_only_witness :
  exists e1 e2,
    (e0 <- ErrorDataError VUndefined VUndefined ;;
     add_all e0 [(VString "required", VString "age", VString "missing",
                  VUndefined)]) = Normal e1
    /\ add_all e1 [(VString "format", VString "email", VString "bad",
                    VUndefined)] = Normal e2
    /\ error e2 0 = error e1 0
    /\ error e1 0
       = Normal (record (VString "required", VString "age",
                         VString "missing", VUndefined)).
Proof.
  apply (X12_append_only VUndefined VUndefined
           [(VString "required", VString "age", VString "missing",
             VUndefined)]
           [(VString "format", VString "email", VString "bad", VUndefined)]
           0).
  simpl. lia.
Defined.

(** ** Further properties of [ErrorFieldNotAllowed] and [ErrorFieldNotFound] *)

Lemma truthy_default_false (message : value) :
  truthy (default (VBool false) message) = truthy message.
Proof. destruct message; reflexivity. Qed.

(** X13: [ErrorFieldNotAllowed] looks at [fields] only to render its
    default message.  It returns exactly when it is given a truthy message
    or an array of fields; it then stores [fields] as given, and a truthy
    message, as a string, is the instance's message whatever [fields]
    is. *)
Theorem X13_FieldNotAllowed_returns
    (fields message status : value) :
  ((exists e, ErrorFieldNotAllowed fields message status = Normal e)
   <-> (truthy message = true \/ exists l, fields = VArray l))
  /\ (forall e,
        ErrorFieldNotAllowed fields message status = Normal e ->
        this_get e "fields" = fields
        /\ (truthy message = true ->
            this_get e "message" = VString (ToString message))).
Proof.
  unfold ErrorFieldNotAllowed. rewrite truthy_default_false.
  destruct (truthy message) eqn:Ht; simpl.
  - split.
    + split; [intros _; now left | intros _; eexists; reflexivity].
    + intros e H; inversion H; subst e. split; [now read_own |].
      intros _. destruct message; try discriminate; reflexivity.
  - split.
    + split.
      * intros [e H]. right.
        destruct fields; simpl in H; try discriminate. eexists; reflexivity.
      * intros [H | [l ->]]; [discriminate | eexists; reflexivity].
    + intros e H. destruct fields; simpl in H; try discriminate.
      inversion H; subst e. split; [now read_own | discriminate].
Qed.

(** X14: without a message, [ErrorFieldNotFound] renders
    [field (<fieldName>) was not found] around the field name as a string,
    the empty string when the name is left out; the text is the message of
    the instance, of the Boom error and of its payload, and the status is
    404. *)
Theorem X14_FieldNotFound_template (fieldName status : value) :
  let text :=
    ("field (" ++ ToString (default (VString "") fieldName)
     ++ ") was not found")%string in
  let e := ErrorFieldNotFound fieldName VUndefined status in
  this_get e "message" = VString text
  /\ Boom.message (asBoom e) = text
  /\ get (Boom.payload (Boom.output (asBoom e))) "message" = VString text
  /\ Boom.statusCode (Boom.output (asBoom e)) = 404.
Proof.
  cbv zeta. rewrite asBoom_eq.
  split; [reflexivity |]. repeat split.
Qed.

(** ** Default messages *)

(** X15: constructed without a message, an instance has the default
    message of its class, the empty string for the classes that have none
    ([ErrorBase], NotImplemented, Typed, BadRequest, ServerError, Unknown).
    The Boom error of the conversion then has the text of the class for
    Duplicate, FieldNotValid and File, the reason phrase of the status where
    the message is empty, and the default message otherwise. *)
Theorem X15_default_messages
    (C : Class.t) (args : list value) (e : instance) :
  arg args (message_position C) = VUndefined ->
  C <> Class.ErrorFieldNotFound ->
  C <> Class.ErrorFieldNotAllowed ->
  new C args = Normal e ->
  this_get e "message" = VString (default_message C)
  /\ Boom.message (asBoom e)
     = match fixed_text C with
       | Some text => text
       | None =>
           if (default_message C =? "")%string
           then Boom.phrase (conversion_status C)
           else default_message C
       end.
Proof.
  intros Harg HF HA.
  destruct C; try congruence; cbn [message_position] in Harg;
    run_new; rewrite Harg; intros Hnew; inversion Hnew; subst e;
    split; reflexivity.
Qed.

Lemma X15_default_messages_witness :
  this_get (ErrorBadRequest VUndefined VUndefined) "message" = VString ""
  /\ Boom.message (asBoom (ErrorBadRequest VUndefined VUndefined))
     = "Unprocessable Entity".
Proof.
  exact (X15_default_messages Class.ErrorBadRequest []
           (ErrorBadRequest VUndefined VUndefined)
           eq_refl ltac:(discriminate) ltac:(discriminate) eq_refl).
Defined.

(** ** Seeding the aggregator *)

(** X16: the two ways of constructing an aggregator.  From a descriptor
    object it holds one record, with the descriptor's [type], [fieldname]
    and [message] and no [data]; its own message is ["data error"], not the
    descriptor's, and its status is the one given, 401 when left out.  From
    anything that is not an object it is empty, the argument is its message
    and the status given is dropped for 401. *)
Theorem X16_aggregator_seeding (status : value) :
  (forall o,
     exists e,
       ErrorDataError (VObject o) status = Normal e
       /\ length e = Normal (VNumber 1)
       /\ error e 0
          = Normal (record (get o "type", get o "fieldname", get o "message",
                            VUndefined))
       /\ this_get e "message" = VString "data error"
       /\ this_get e "boomStatus" = default (VNumber 401) status)
  /\ (forall m : string,
        exists e,
          ErrorDataError (VString m) status = Normal e
          /\ length e = Normal (VNumber 0)
          /\ this_get e "message" = VString m
          /\ this_get e "boomStatus" = VNumber 401).
Proof.
  split.
  - intros o.
    destruct (ErrorDataError_returns (VObject o) status)
      as (e & Hnew & Hagg & _).
    exists e. split; [exact Hnew |].
    rewrite (aggregator_length _ _ _ _ Hagg).
    rewrite (aggregator_error _ _ _ _ _ Hagg).
    destruct Hagg as [_ Hm Hs _].
    repeat split; try assumption.
    rewrite Hs. now destruct status.
  - intros m.
    destruct (ErrorDataError_returns (VString m) status)
      as (e & Hnew & Hagg & _).
    exists e. split; [exact Hnew |].
    rewrite (aggregator_length _ _ _ _ Hagg).
    destruct Hagg as [_ Hm Hs _].
    repeat split; assumption.
Qed.
